(** * flexstack: payload shaping and argument validation of the client SDK

    A shallow embedding of [flexstack/models/{image,audio,llm,info}.py].
    Every method of the four client classes builds one HTTP request
    from its arguments, hands it to the [requests] library and returns
    the decoded body.  The embedding keeps

    - Python values as the inductive [pyval]; a [dict] is an association
      list in insertion order, as Python iterates it;
    - exceptions as the type [exn], raised through the monad [M];
    - the [requests] library as a [transport] function supplied from
      outside, and a log of the requests handed to it. *)

From stdpp Require Import base strings list gmap.

Set Warnings "-register-all".

Open Scope Z_scope.
Open Scope string_scope.

(** ** Python values *)

(** The values that flow through the client.  A [float] is kept as the
    decimal literal that denotes it, [VFloat m e] standing for
    [m * 10^e]: the client never computes with floats, it only passes
    them on.  Dictionary keys are strings, which is all that a JSON
    object or a keyword-argument dictionary can hold. *)
Inductive pyval : Type :=
  | VNone
  | VBool (b : bool)
  | VInt (n : Z)
  | VFloat (m e : Z)
  | VStr (s : string)
  | VList (xs : list pyval)
  | VDict (kvs : list (string * pyval)).

Abbreviation pydict := (list (string * pyval)).

(** Python's [==] between a value and a string literal. *)
Definition py_eq_str (v : pyval) (s : string) : bool :=
  match v with
  | VStr t => bool_decide (t = s)
  | _ => false
  end.

(** [v in [s1, s2, ...]] for a list of string literals. *)
Definition py_in_strs (v : pyval) (l : list string) : bool :=
  existsb (py_eq_str v) l.

(** ** Dictionaries *)

Module Dict.

(** [d.keys()], in insertion order. *)
Definition keys (d : pydict) : list string := d.*1.

(** [d.get(k)]: the value bound to [k], if any. *)
Fixpoint get (k : string) (d : pydict) : option pyval :=
  match d with
  | [] => None
  | (k', v) :: rest => if bool_decide (k' = k) then Some v else get k rest
  end.

(** [d[k] = v]: an existing key keeps its position, a new key goes
    last. *)
Fixpoint set (k : string) (v : pyval) (d : pydict) : pydict :=
  match d with
  | [] => [(k, v)]
  | (k', v') :: rest =>
      if bool_decide (k' = k) then (k, v) :: rest
      else (k', v') :: set k v rest
  end.

(** [d.update(other)]. *)
Definition update (d other : pydict) : pydict :=
  fold_left (fun acc kv => set kv.1 kv.2 acc) other d.

End Dict.

(** [sep.join(l)]. *)
Fixpoint join (sep : string) (l : list string) : string :=
  match l with
  | [] => ""
  | [s] => s
  | s :: rest => s +:+ sep +:+ join sep rest
  end.

(** [needle in haystack] for strings. *)
Definition contains_str (needle haystack : string) : bool :=
  match String.index 0 needle haystack with
  | Some _ => true
  | None => false
  end.

(** ** Exceptions and results *)

Inductive exn : Type :=
  | ValueError (msg : string)
  | KeyError (key : string)
  | AttributeError (msg : string)
  | HTTPError (status : Z)
  | JSONDecodeError
  | ConnectionError.

Inductive result (A : Type) : Type :=
  | Ok (a : A)
  | Raise (e : exn).
Arguments Ok {A} a.
Arguments Raise {A} e.

(** ** The HTTP layer *)

Inductive http_method : Type := GET | POST.

(** What a method hands to [requests.get] / [requests.post]: the
    keyword arguments [params], [json] and [stream] are [None] / [false]
    when the call does not pass them. *)
Record request : Type := mkRequest {
  req_method : http_method;
  req_url : string;
  req_headers : pydict;
  req_params : option pydict;
  req_json : option pyval;
  req_stream : bool
}.

(** What comes back: the status code, the body decoded as JSON (absent
    when the body is not JSON) and the body cut into lines as
    [iter_lines] delivers them once the connection has closed. *)
Record response : Type := mkResponse {
  status_code : Z;
  json_body : option pyval;
  iter_lines : list string
}.

(** The [requests] library and the server behind it: a request either
    raises (no connection) or is answered. *)
Definition transport : Type := request -> result response.

(** Computations that may raise and that log the requests they issue. *)
Definition M (A : Type) : Type :=
  transport -> list request -> result A * list request.

Definition ret {A} (a : A) : M A := fun _ log => (Ok a, log).

Definition raise {A} (e : exn) : M A := fun _ log => (Raise e, log).

Definition bind {A B} (m : M A) (f : A -> M B) : M B :=
  fun t log =>
    match m t log with
    | (Ok a, log') => f a t log'
    | (Raise e, log') => (Raise e, log')
    end.

Definition lift {A} (r : result A) : M A := fun _ log => (r, log).

Definition send (r : request) : M response :=
  fun t log => (t r, (log ++ [r])%list).

Declare Scope py_scope.
Delimit Scope py_scope with py.
Notation "x <- m ;; k" := (bind m (fun x => k))
  (at level 100, m at next level, right associativity) : py_scope.
Notation "m ;;; k" := (bind m (fun _ => k))
  (at level 100, right associativity) : py_scope.

(** A call from a fresh interpreter: nothing sent yet. *)
Definition run {A} (m : M A) (t : transport) : result A * list request :=
  m t [].

(** The requests a call has handed to the transport. *)
Definition sent {A} (m : M A) (t : transport) : list request := (run m t).2.

(** [requests.get(url, headers=headers)] *)
Definition requests_get (url : string) (headers : pydict) : M response :=
  send (mkRequest GET url headers None None false).

(** [requests.get(url, headers=headers, params=params)] *)
Definition requests_get_params (url : string) (headers params : pydict)
  : M response :=
  send (mkRequest GET url headers (Some params) None false).

(** [requests.post(url, json=payload, headers=headers)] *)
Definition requests_post (url : string) (payload : pyval) (headers : pydict)
  : M response :=
  send (mkRequest POST url headers None (Some payload) false).

(** [requests.post(url, json=payload, stream=True, headers=headers)] *)
Definition requests_post_stream (url : string) (payload : pyval)
    (headers : pydict) : M response :=
  send (mkRequest POST url headers None (Some payload) true).

(** [response.json()] *)
Definition response_json (r : response) : M pyval :=
  match json_body r with
  | Some v => ret v
  | None => raise JSONDecodeError
  end.

(** [response.raise_for_status()] of the [requests] library: an
    [HTTPError] for a client error (4xx) or a server error (5xx),
    nothing for any other status. *)
Definition raise_for_status (r : response) : result unit :=
  if bool_decide (400 <= status_code r < 600)
  then Raise (HTTPError (status_code r))
  else Ok tt.

(** A parameter with a default value: [None] is an argument the caller
    left out, [Some v] one that was passed (also when [v] is Python's
    [None]). *)
Definition arg {A} (dflt : A) (given : option A) : A := default dflt given.

(** ** image.py *)

Module ImageGeneration.

Record t : Type := { base_url : string }.

(** A static method: it does not see [self]. *)
Definition create_config
    (rotation steps negative_prompt enhance_prompt : option pyval) : pydict :=
  [ ("rotation", arg (VStr "square") rotation);
    ("steps", arg (VInt 50) steps);
    ("negative_prompt", arg (VStr "") negative_prompt);
    ("lora_weight_url", VStr "");
    ("enhance_prompt", arg (VBool false) enhance_prompt) ].

Section Methods.
Variable self : t.
Open Scope py_scope.

Definition create_sd_task (prompt : pyval)
    (rotation steps negative_prompt enhance_prompt : option pyval)
    (headers : option pydict) : M pyval :=
  let rotation := arg (VStr "square") rotation in
  let steps := arg (VInt 50) steps in
  let negative_prompt := arg (VStr "") negative_prompt in
  let enhance_prompt := arg (VBool false) enhance_prompt in
  let headers := arg [] headers in
  let config :=
    create_config (Some rotation) (Some steps) (Some negative_prompt)
      (Some enhance_prompt) in
  let url := base_url self +:+ "/ai/create_sd_task" in
  let payload := VDict [("prompt", prompt); ("config", VDict config)] in
  response <- requests_post url payload headers ;;
  response_json response.

Definition get_result_sd_task (task_id : pyval) (headers : option pydict)
  : M pyval :=
  let headers := arg [] headers in
  let url := base_url self +:+ "/ai/get_result_sd_task" in
  let payload := VDict [("task_id", task_id)] in
  response <- requests_post url payload headers ;;
  response_json response.

Definition create_sdxl_task (prompt : pyval)
    (rotation steps negative_prompt enhance_prompt : option pyval)
    (headers : option pydict) : M pyval :=
  let rotation := arg (VStr "square") rotation in
  let steps := arg (VInt 50) steps in
  let negative_prompt := arg (VStr "") negative_prompt in
  let enhance_prompt := arg (VBool false) enhance_prompt in
  let headers := arg [] headers in
  let config :=
    create_config (Some rotation) (Some steps) (Some negative_prompt)
      (Some enhance_prompt) in
  let url := base_url self +:+ "/ai/create_sdxl_task" in
  let payload := VDict [("prompt", prompt); ("config", VDict config)] in
  response <- requests_post url payload headers ;;
  response_json response.

Definition get_result_sdxl_task (task_id : pyval) (headers : option pydict)
  : M pyval :=
  let headers := arg [] headers in
  let url := base_url self +:+ "/ai/get_result_sdxl_task" in
  let payload := VDict [("task_id", task_id)] in
  response <- requests_post url payload headers ;;
  response_json response.

(** The configs record of [create_txt2img], keyword by keyword as
    [dict(...)] receives them.  The fourth keyword is spelt with the
    letter U+01B0 in the source, not with a [w]. *)
Definition txt2img_configs
    (model lora width height steps seed negative_prompt enhance_prompt : pyval)
  : pydict :=
  [ ("model", model);
    ("lora", lora);
    ("height", height);
    ("ưidth", width);
    ("steps", steps);
    ("negative_prompt", negative_prompt);
    ("seed", seed);
    ("enhance_prompt", enhance_prompt) ].

Definition create_txt2img (prompt : pyval)
    (model lora width height steps seed negative_prompt enhance_prompt
       : option pyval)
    (headers : option pydict) : M pyval :=
  let model := arg (VStr "sdxl-lightning") model in
  let lora := arg (VStr "") lora in
  let width := arg (VInt 1024) width in
  let height := arg (VInt 1024) height in
  let steps := arg (VInt 8) steps in
  let seed := arg (VInt (-1)) seed in
  let negative_prompt := arg (VStr "") negative_prompt in
  let enhance_prompt := arg (VBool false) enhance_prompt in
  let headers := arg [] headers in
  let configs :=
    txt2img_configs model lora width height steps seed negative_prompt
      enhance_prompt in
  let url := base_url self +:+ "/ai/image_generation" in
  let payload := VDict [("prompt", prompt); ("configs", VDict configs)] in
  response <- requests_post url payload headers ;;
  response_json response.

Definition result_txt2img (task_id : string) (headers : option pydict)
  : M pyval :=
  let headers := arg [] headers in
  let url := base_url self +:+ "/ai/image_generation/" +:+ task_id in
  response <- requests_get url headers ;;
  response_json response.

Definition create_txt2vid (prompt : pyval)
    (model width height fps num_frames steps seed negative_prompt
       enhance_prompt : option pyval)
    (headers : option pydict) : M pyval :=
  let model := arg (VStr "damo-text-to-video") model in
  let width := arg (VInt 256) width in
  let height := arg (VInt 256) height in
  let fps := arg (VInt 8) fps in
  let num_frames := arg (VInt 16) num_frames in
  let steps := arg (VInt 25) steps in
  let seed := arg (VInt (-1)) seed in
  let negative_prompt := arg (VStr "") negative_prompt in
  let enhance_prompt := arg (VBool false) enhance_prompt in
  let headers := arg [] headers in
  let configs :=
    [ ("model", model); ("width", width); ("height", height); ("fps", fps);
      ("num_frames", num_frames); ("steps", steps);
      ("negative_prompt", negative_prompt); ("seed", seed);
      ("enhance_prompt", enhance_prompt) ] in
  let url := base_url self +:+ "/ai/video_generation" in
  let payload := VDict [("prompt", prompt); ("configs", VDict configs)] in
  response <- requests_post url payload headers ;;
  response_json response.

Definition result_txt2vid (task_id : string) (headers : option pydict)
  : M pyval :=
  let headers := arg [] headers in
  let url := base_url self +:+ "/ai/video_generation/" +:+ task_id in
  response <- requests_get url headers ;;
  response_json response.

Definition get_lora_models (type cate : option pyval)
    (headers : option pydict) : M pyval :=
  let type := arg VNone type in
  let cate := arg VNone cate in
  let headers := arg [] headers in
  let params := [] in
  let params := Dict.set "type" type params in
  let params := Dict.set "cate" cate params in
  let url := base_url self +:+ "/lora/" in
  response <- requests_get_params url headers params ;;
  response_json response.

Definition get_lora_types (headers : option pydict) : M pyval :=
  let headers := arg [] headers in
  let url := base_url self +:+ "/lora/types" in
  response <- requests_get url headers ;;
  response_json response.

Definition get_lora_cates (headers : option pydict) : M pyval :=
  let headers := arg [] headers in
  let url := base_url self +:+ "/lora/cates" in
  response <- requests_get url headers ;;
  response_json response.

Definition get_result_lora_trainer_task (task_id : pyval)
    (headers : option pydict) : M pyval :=
  let headers := arg [] headers in
  let url := base_url self +:+ "/ai/get_result_lora_trainner_task" in
  let payload := VDict [("task_id", task_id)] in
  response <- requests_post url payload headers ;;
  response_json response.

End Methods.

(** A value of the [files] argument of [requests.post]: a string, sent
    as the content of the part, or a pair [(filename, data)]. *)
Inductive file_value : Type :=
  | FileContent (content : string)
  | FileTuple (filename data : pyval).

(** What [create_lora_trainer_task] hands to
    [requests.post(url, files=..., headers=headers)]: a multipart form,
    its parts in order, each under its field name. *)
Record upload : Type := mkUpload {
  up_url : string;
  up_headers : pydict;
  up_files : list (string * file_value)
}.

(** [files + list(data.items())] for the one-entry dictionary
    [data = {'prompt': (None, prompt)}]. *)
Definition trainer_parts (prompt : pyval) (images : list string)
  : list (string * file_value) :=
  let files := map (fun image => ("files", FileContent image)) images in
  let data := [("prompt", FileTuple VNone prompt)] in
  (files ++ data)%list.

(** The multipart call is the only one of its kind, so it takes its own
    transport and returns, with its result, the form it has posted. *)
Definition create_lora_trainer_task (self : t) (prompt : pyval)
    (images : list string) (headers : option pydict)
    (post : upload -> result response) : result pyval * list upload :=
  let headers := arg [] headers in
  let url := base_url self +:+ "/ai/create_lora_trainner_task" in
  let req := mkUpload url headers (trainer_parts prompt images) in
  match post req with
  | Raise e => (Raise e, [req])
  | Ok response =>
      match json_body response with
      | Some v => (Ok v, [req])
      | None => (Raise JSONDecodeError, [req])
      end
  end.

End ImageGeneration.

(** ** audio.py *)

Module AudioGeneration.

Record t : Type := { base_url : string }.

(** The keyword arguments each model accepts. *)
Definition _kwargs_valids : gmap string (list string) :=
  {[ "audiogen" := ["duration"; "top_k"; "top_p"];
     "musicgen" := ["duration"; "top_k"; "top_p"];
     "bark" := [] ]}.

(** [_kwargs_valids[model]] *)
Definition valids_getitem (model : string) : result (list string) :=
  match _kwargs_valids !! model with
  | Some names => Ok names
  | None => Raise (KeyError model)
  end.

(** The text of the [ValueError] for keyword [k], given the list
    [_kwargs_valids[model]]. *)
Definition unsupported_msg (model k : string) (names : list string) : string :=
  "Model `" +:+ model +:+ "` does not support keyword argument: `" +:+ k
  +:+ "`. Only suport in ["
  +:+ join ", " (names ++ ["prompt"; "model"])%list +:+ "]".

(** The loop [for k, v in kwargs.items()]: the table is indexed inside
    the loop body, once for the test and once more for the message. *)
Fixpoint check_kwargs (model : string) (items : pydict) : result unit :=
  match items with
  | [] => Ok tt
  | (k, _) :: rest =>
      match valids_getitem model with
      | Raise e => Raise e
      | Ok names =>
          if negb (bool_decide (k ∈ names)) then
            match valids_getitem model with
            | Raise e => Raise e
            | Ok names' => Raise (ValueError (unsupported_msg model k names'))
            end
          else check_kwargs model rest
      end
  end.

(** [kwargs[k] = dflt if k not in kwargs else kwargs[k]]: the lookup
    decides both the membership test and the value kept. *)
Definition backfill (k : string) (dflt : pyval) (kwargs : pydict) : pydict :=
  Dict.set k
    (match Dict.get k kwargs with
     | None => dflt
     | Some v => v
     end)
    kwargs.

Definition default_kwargs (model : string) (kwargs : pydict) : pydict :=
  if bool_decide (model = "audiogen") || bool_decide (model = "musicgen") then
    let kwargs := backfill "duration" (VInt 5) kwargs in
    let kwargs := backfill "top_k" (VInt 15) kwargs in
    let kwargs := backfill "top_p" (VFloat 9 (-1)) kwargs in
    kwargs
  else kwargs.

(** [configs = dict(model=model); configs.update(kwargs)] *)
Definition build_configs (model : string) (kwargs : pydict) : pydict :=
  Dict.update [("model", VStr model)] kwargs.

Section Methods.
Variable self : t.
Open Scope py_scope.

Definition create_txt2audio (prompt : pyval) (model : option string)
    (headers : option pydict) (kwargs : pydict) : M pyval :=
  let model := arg "musicgen" model in
  let headers := arg [] headers in
  lift (check_kwargs model kwargs) ;;;
  let kwargs := default_kwargs model kwargs in
  let url := base_url self +:+ "/ai/audio_generation" in
  let configs := build_configs model kwargs in
  let payload := VDict [("prompt", prompt); ("configs", VDict configs)] in
  response <- requests_post url payload headers ;;
  response_json response.

Definition result_txt2audio (task_id : string) (headers : option pydict)
  : M pyval :=
  let headers := arg [] headers in
  let url := base_url self +:+ "/ai/audio_generation/" +:+ task_id in
  response <- requests_get url headers ;;
  response_json response.

End Methods.

End AudioGeneration.

(** ** llm.py *)

Module TextGeneration.

Record t : Type := { base_url : string }.

Definition msg_not_list : string :=
  "Messages must be a list. Example: [{'role': 'user', 'content': 'Hello'}]".
Definition msg_bad_keys : string :=
  "Message must contain 'role' and 'content'. Example: [{'role': 'user', 'content': 'Hello'}]".
Definition msg_bad_role : string :=
  "Message role must be 'system', 'user' or 'assistant'. Example: [{'role': 'user', 'content': 'Hello'}]".

(** The body of the loop [for message in messages].  Only a [dict] has
    a method [keys]; [message['role']] raises [KeyError] on a missing
    key. *)
Definition check_message (message : pyval) : result unit :=
  match message with
  | VDict kvs =>
      let keys := Dict.keys kvs in
      if bool_decide ((list_to_set keys : gset string)
                      ≠ list_to_set ["role"; "content"]) then
        Raise (ValueError msg_bad_keys)
      else
        match Dict.get "role" kvs with
        | None => Raise (KeyError "role")
        | Some role =>
            if negb (py_in_strs role ["system"; "user"; "assistant"]) then
              Raise (ValueError msg_bad_role)
            else Ok tt
        end
  | _ => Raise (AttributeError "keys")
  end.

Fixpoint check_each (messages : list pyval) : result unit :=
  match messages with
  | [] => Ok tt
  | message :: rest =>
      match check_message message with
      | Raise e => Raise e
      | Ok _ => check_each rest
      end
  end.

(** The validation that opens both [text_generation] and
    [generate_text_stream], statement for statement the same in the
    two. *)
Definition check_messages (messages : pyval) : result unit :=
  match messages with
  | VList ms => check_each ms
  | _ => Raise (ValueError msg_not_list)
  end.

Definition completion_configs
    (model temperature top_k top_p max_tokens : pyval) : pydict :=
  [ ("model", model); ("temperature", temperature); ("top_k", top_k);
    ("top_p", top_p); ("max_new_tokens", max_tokens) ].

(** A generator object of [generate_text_stream]: not started yet
    (holding the arguments of the call, [self] among them), suspended
    at the [yield] with the rest of [response.iter_lines()] still to
    come, or finished. *)
Inductive generator : Type :=
  | GenCreated (self : t)
      (messages model temperature top_k top_p max_tokens : pyval)
      (headers : pydict)
  | GenSuspended (pending : list string)
  | GenFinished.

(** What one [next(gen)] gives. *)
Inductive gen_event : Type :=
  | Yield (line : string)
  | StopIteration
  | GenRaise (e : exn).

(** The loop [for line in response.iter_lines(): if line: yield line],
    run up to its next [yield]. *)
Fixpoint resume_lines (pending : list string) : gen_event * generator :=
  match pending with
  | [] => (StopIteration, GenFinished)
  | line :: rest =>
      if bool_decide (line ≠ "") then (Yield line, GenSuspended rest)
      else resume_lines rest
  end.

Section Methods.
Variable self : t.
Open Scope py_scope.

Definition text_generation (messages : pyval)
    (model temperature top_k top_p max_tokens : option pyval)
    (headers : option pydict) : M pyval :=
  let model := arg (VStr "gemma-7b") model in
  let temperature := arg (VFloat 7 (-1)) temperature in
  let top_k := arg (VInt 50) top_k in
  let top_p := arg (VFloat 95 (-2)) top_p in
  let max_tokens := arg (VInt 256) max_tokens in
  let headers := arg [] headers in
  lift (check_messages messages) ;;;
  let url := base_url self +:+ "/ai/text_completion" in
  let configs := completion_configs model temperature top_k top_p max_tokens in
  let payload := VDict [("messages", messages); ("configs", VDict configs)] in
  response <- requests_post url payload headers ;;
  response_json response.

(** Calling a generator function runs none of its body: it binds the
    arguments and returns the generator object. *)
Definition generate_text_stream (messages : pyval)
    (model temperature top_k top_p max_tokens : option pyval)
    (headers : option pydict) : generator :=
  GenCreated self messages
    (arg (VStr "gemma-7b") model)
    (arg (VFloat 7 (-1)) temperature)
    (arg (VInt 50) top_k)
    (arg (VFloat 95 (-2)) top_p)
    (arg (VInt 256) max_tokens)
    (arg [] headers).

Definition create_text_embedding (text : pyval) (model : option pyval)
    (headers : option pydict) : M pyval :=
  let model := arg (VStr "mistral") model in
  let headers := arg [] headers in
  let url := base_url self +:+ "/ai/text_embedding" in
  let configs := [("model", model)] in
  let payload := VDict [("text", text); ("configs", VDict configs)] in
  response <- requests_post url payload headers ;;
  response_json response.

Definition result_text_embedding (task_id : string) (headers : option pydict)
  : M pyval :=
  let headers := arg [] headers in
  let url := base_url self +:+ "/ai/text_embedding/" +:+ task_id in
  response <- requests_get url headers ;;
  response_json response.

End Methods.

(** [next(gen)]: runs the body of [generate_text_stream] from where it
    stands to the next [yield], to its end or to an exception. *)
Definition next (g : generator) (tr : transport) (log : list request)
  : gen_event * generator * list request :=
  match g with
  | GenCreated self messages model temperature top_k top_p max_tokens headers =>
      match check_messages messages with
      | Raise e => (GenRaise e, GenFinished, log)
      | Ok _ =>
          let url := base_url self +:+ "/ai/text_completion?stream=true" in
          let configs :=
            completion_configs model temperature top_k top_p max_tokens in
          let payload :=
            VDict [("messages", messages); ("configs", VDict configs)] in
          match requests_post_stream url payload headers tr log with
          | (Raise e, log') => (GenRaise e, GenFinished, log')
          | (Ok response, log') =>
              match raise_for_status response with
              | Raise e => (GenRaise e, GenFinished, log')
              | Ok _ =>
                  let (ev, g') := resume_lines (iter_lines response) in
                  (ev, g', log')
              end
          end
      end
  | GenSuspended pending =>
      let (ev, g') := resume_lines pending in (ev, g', log)
  | GenFinished => (StopIteration, GenFinished, log)
  end.

(** A consumer [for line in gen: ...] that keeps what it is given: the
    lines yielded, in order, and the event that ended the loop
    ([None] while the loop has not ended within [fuel] resumptions). *)
Fixpoint consume (fuel : nat) (g : generator) (tr : transport)
    (log : list request) : list string * option gen_event * list request :=
  match fuel with
  | O => ([], None, log)
  | S fuel' =>
      match next g tr log with
      | (Yield line, g', log') =>
          let '(lines, ending, log'') := consume fuel' g' tr log' in
          (line :: lines, ending, log'')
      | (ev, _, log') => ([], Some ev, log')
      end
  end.

End TextGeneration.

(** ** info.py *)

Module FlexstackInfo.

Record t : Type := { base_url : string }.

(** The double-quote character, which the error message of
    [get_models] puts around each task name. *)
Definition dq : string := String (Ascii.ascii_of_nat 34) EmptyString.

Definition quoted (s : string) : string := dq +:+ s +:+ dq.

Definition valid_tasks : list string :=
  [ "image_generation"; "video_generation"; "text_completion";
    "audio_generation"; "text_embedding" ].

Definition msg_bad_task : string :=
  "task must be one of [" +:+ quoted "image_generation" +:+ ", "
  +:+ quoted "video_generation" +:+ ", " +:+ quoted "text_completion"
  +:+ ", " +:+ quoted "audio_generation" +:+ ", "
  +:+ quoted "text_embedding" +:+ "]".

Section Methods.
Variable self : t.
Open Scope py_scope.

Definition get_all_models (headers : option pydict) : M pyval :=
  let headers := arg [] headers in
  let url := base_url self +:+ "/ai/models" in
  response <- requests_get url headers ;;
  response_json response.

Definition get_models (task : string) (headers : option pydict) : M pyval :=
  let headers := arg [] headers in
  if negb (bool_decide (task ∈ valid_tasks)) then
    raise (ValueError msg_bad_task)
  else
    let url := base_url self +:+ "/models/" +:+ task in
    response <- requests_get url headers ;;
    response_json response.

End Methods.

End FlexstackInfo.

(** ** Vocabulary of the specification *)

(** What a method that issues the single request [req] returns: an
    exception of the transport is passed on, a body that is not JSON
    raises, a JSON body is returned decoded. *)
Definition answer (tr : transport) (req : request) : result pyval :=
  match tr req with
  | Raise e => Raise e
  | Ok r =>
      match json_body r with
      | Some v => Ok v
      | None => Raise JSONDecodeError
      end
  end.

(** The specification's ValidationError is Python's [ValueError]; a
    call fails validation when it raises [ValueError] with no request
    handed to the transport. *)
Definition fails_validation {A} (m : M A) (tr : transport) : Prop :=
  exists msg, run m tr = (Raise (ValueError msg), []).

(** The [configs] entry of the JSON body of a request. *)
Definition posted_configs (req : request) : option pydict :=
  match req_json req with
  | Some (VDict body) =>
      match Dict.get "configs" body with
      | Some (VDict configs) => Some configs
      | _ => None
      end
  | _ => None
  end.

(** The [prompt] entry of the JSON body of a request. *)
Definition posted_prompt (req : request) : option pyval :=
  match req_json req with
  | Some (VDict body) => Dict.get "prompt" body
  | _ => None
  end.

(** The audio models the specification names. *)
Definition audio_models : list string := ["audiogen"; "musicgen"; "bark"].

(** The allow-list of extra keyword names the specification gives each
    audio model. *)
Definition allow_list (model : string) : list string :=
  if bool_decide (model = "bark") then []
  else ["duration"; "top_k"; "top_p"].

(** A Message record of the specification: the key-set is exactly
    {role, content} and the role is one of the three allowed values. *)
Definition is_message (v : pyval) : bool :=
  match v with
  | VDict kvs =>
      bool_decide (list_to_set (Dict.keys kvs)
                   = ({[ "role"; "content" ]} : gset string))
      && match Dict.get "role" kvs with
         | Some (VStr r) => bool_decide (r ∈ ["system"; "user"; "assistant"])
         | _ => false
         end
  | _ => false
  end.

(** A sequence of Message records. *)
Definition is_message_list (v : pyval) : bool :=
  match v with
  | VList ms => forallb is_message ms
  | _ => false
  end.

Definition is_record (v : pyval) : bool :=
  match v with
  | VDict _ => true
  | _ => false
  end.

(** An argument that is not a list at all, or a list of records. *)
Definition records_if_list (v : pyval) : bool :=
  match v with
  | VList ms => forallb is_record ms
  | _ => true
  end.

(** The request that the first resumption of a stream generator
    posts. *)
Definition stream_request (self : TextGeneration.t)
    (messages model temperature top_k top_p max_tokens : pyval)
    (headers : pydict) : request :=
  mkRequest POST
    (TextGeneration.base_url self +:+ "/ai/text_completion?stream=true")
    headers None
    (Some (VDict
       [ ("messages", messages);
         ("configs",
          VDict [ ("model", model); ("temperature", temperature);
                  ("top_k", top_k); ("top_p", top_p);
                  ("max_new_tokens", max_tokens) ]) ]))
    true.

(** The non-empty lines of a body, in order. *)
Definition non_empty_lines (lines : list string) : list string :=
  filter (fun line => line ≠ "") lines.

(** The first resumption of a stream generator fails validation when
    it raises [ValueError] with no request handed to the transport. *)
Definition stream_fails_validation (g : TextGeneration.generator)
    (tr : transport) : Prop :=
  exists msg,
    TextGeneration.next g tr []
    = (TextGeneration.GenRaise (ValueError msg), TextGeneration.GenFinished, []).

(** ** Sample inputs *)

Definition audio_client : AudioGeneration.t :=
  {| AudioGeneration.base_url := "https://api.example" |}.

Definition text_client : TextGeneration.t :=
  {| TextGeneration.base_url := "https://api.example" |}.

Definition info_client : FlexstackInfo.t :=
  {| FlexstackInfo.base_url := "https://api.example" |}.

(** A server that answers every request with 200 and the body [null]. *)
Definition transport_ok : transport :=
  fun _ => Ok (mkResponse 200 (Some VNone) []).

Definition sample_messages : pyval :=
  VList [ VDict [("role", VStr "system"); ("content", VStr "Be brief.")];
          VDict [("role", VStr "user"); ("content", VStr "Hello")] ].

(** A server that answers every request with the status [status] and a
    body of three lines, the second one empty. *)
Definition transport_lines (status : Z) : transport :=
  fun _ => Ok (mkResponse status None ["data: Hel"; ""; "data: lo"]).

(** ** The calls that validate nothing *)

(** One constructor for each method that builds its request without
    any check of its arguments, holding the arguments of the call. *)
Inductive plain_call : Type :=
  | CreateSdTask (self : ImageGeneration.t) (prompt : pyval)
      (rotation steps negative_prompt enhance_prompt : option pyval)
      (headers : option pydict)
  | GetResultSdTask (self : ImageGeneration.t) (task_id : pyval)
      (headers : option pydict)
  | CreateSdxlTask (self : ImageGeneration.t) (prompt : pyval)
      (rotation steps negative_prompt enhance_prompt : option pyval)
      (headers : option pydict)
  | GetResultSdxlTask (self : ImageGeneration.t) (task_id : pyval)
      (headers : option pydict)
  | CreateTxt2Img (self : ImageGeneration.t) (prompt : pyval)
      (model lora width height steps seed negative_prompt enhance_prompt
         : option pyval) (headers : option pydict)
  | ResultTxt2Img (self : ImageGeneration.t) (task_id : string)
      (headers : option pydict)
  | CreateTxt2Vid (self : ImageGeneration.t) (prompt : pyval)
      (model width height fps num_frames steps seed negative_prompt
         enhance_prompt : option pyval) (headers : option pydict)
  | ResultTxt2Vid (self : ImageGeneration.t) (task_id : string)
      (headers : option pydict)
  | GetLoraTypes (self : ImageGeneration.t) (headers : option pydict)
  | GetLoraCates (self : ImageGeneration.t) (headers : option pydict)
  | GetLoraModels (self : ImageGeneration.t) (type cate : option pyval)
      (headers : option pydict)
  | GetResultLoraTrainerTask (self : ImageGeneration.t) (task_id : pyval)
      (headers : option pydict)
  | ResultTxt2Audio (self : AudioGeneration.t) (task_id : string)
      (headers : option pydict)
  | CreateTextEmbedding (self : TextGeneration.t) (text : pyval)
      (model : option pyval) (headers : option pydict)
  | ResultTextEmbedding (self : TextGeneration.t) (task_id : string)
      (headers : option pydict)
  | GetAllModels (self : FlexstackInfo.t) (headers : option pydict).

(** The method call a [plain_call] stands for. *)
Definition perform (c : plain_call) : M pyval :=
  match c with
  | CreateSdTask self prompt rotation steps negative_prompt enhance_prompt
      headers =>
      ImageGeneration.create_sd_task self prompt rotation steps
        negative_prompt enhance_prompt headers
  | GetResultSdTask self task_id headers =>
      ImageGeneration.get_result_sd_task self task_id headers
  | CreateSdxlTask self prompt rotation steps negative_prompt enhance_prompt
      headers =>
      ImageGeneration.create_sdxl_task self prompt rotation steps
        negative_prompt enhance_prompt headers
  | GetResultSdxlTask self task_id headers =>
      ImageGeneration.get_result_sdxl_task self task_id headers
  | CreateTxt2Img self prompt model lora width height steps seed
      negative_prompt enhance_prompt headers =>
      ImageGeneration.create_txt2img self prompt model lora width height
        steps seed negative_prompt enhance_prompt headers
  | ResultTxt2Img self task_id headers =>
      ImageGeneration.result_txt2img self task_id headers
  | CreateTxt2Vid self prompt model width height fps num_frames steps seed
      negative_prompt enhance_prompt headers =>
      ImageGeneration.create_txt2vid self prompt model width height fps
        num_frames steps seed negative_prompt enhance_prompt headers
  | ResultTxt2Vid self task_id headers =>
      ImageGeneration.result_txt2vid self task_id headers
  | GetLoraTypes self headers => ImageGeneration.get_lora_types self headers
  | GetLoraCates self headers => ImageGeneration.get_lora_cates self headers
  | GetLoraModels self type cate headers =>
      ImageGeneration.get_lora_models self type cate headers
  | GetResultLoraTrainerTask self task_id headers =>
      ImageGeneration.get_result_lora_trainer_task self task_id headers
  | ResultTxt2Audio self task_id headers =>
      AudioGeneration.result_txt2audio self task_id headers
  | CreateTextEmbedding self text model headers =>
      TextGeneration.create_text_embedding self text model headers
  | ResultTextEmbedding self task_id headers =>
      TextGeneration.result_text_embedding self task_id headers
  | GetAllModels self headers => FlexstackInfo.get_all_models self headers
  end.

(** The [headers] argument of the call. *)
Definition call_headers (c : plain_call) : option pydict :=
  match c with
  | CreateSdTask _ _ _ _ _ _ headers
  | GetResultSdTask _ _ headers
  | CreateSdxlTask _ _ _ _ _ _ headers
  | GetResultSdxlTask _ _ headers
  | CreateTxt2Img _ _ _ _ _ _ _ _ _ _ headers
  | ResultTxt2Img _ _ headers
  | CreateTxt2Vid _ _ _ _ _ _ _ _ _ _ _ headers
  | ResultTxt2Vid _ _ headers
  | GetLoraTypes _ headers
  | GetLoraCates _ headers
  | GetLoraModels _ _ _ headers
  | GetResultLoraTrainerTask _ _ headers
  | ResultTxt2Audio _ _ headers
  | CreateTextEmbedding _ _ _ headers
  | ResultTextEmbedding _ _ headers
  | GetAllModels _ headers => headers
  end.

(** The defaults that [default_kwargs] appends for the keywords the
    caller has not passed, in the order of its three assignments. *)
Definition missing_defaults (kwargs : pydict) : pydict :=
  filter (fun kv => kv.1 ∉ Dict.keys kwargs)
    [ ("duration", VInt 5); ("top_k", VInt 15); ("top_p", VFloat 9 (-1)) ].

(** The images that a multipart form carries under the name [files]. *)
Definition uploaded_images (parts : list (string * ImageGeneration.file_value))
  : list string :=
  omap (fun part =>
          match part with
          | (name, ImageGeneration.FileContent image) =>
              if bool_decide (name = "files") then Some image else None
          | _ => None
          end) parts.

Definition image_client : ImageGeneration.t :=
  {| ImageGeneration.base_url := "https://api.example" |}.

(** * Properties *)

(** ** Running a method that issues one request *)

Lemma run_post url payload headers tr :
  run (bind (requests_post url payload headers) response_json) tr
  = (answer tr (mkRequest POST url headers None (Some payload) false),
     [mkRequest POST url headers None (Some payload) false]).
Proof.
  unfold run, bind, requests_post, send, answer, response_json. simpl.
  destruct (tr _) as [r|e]; simpl; [destruct (json_body r)|]; reflexivity.
Qed.

Lemma run_get url headers tr :
  run (bind (requests_get url headers) response_json) tr
  = (answer tr (mkRequest GET url headers None None false),
     [mkRequest GET url headers None None false]).
Proof.
  unfold run, bind, requests_get, send, answer, response_json. simpl.
  destruct (tr _) as [r|e]; simpl; [destruct (json_body r)|]; reflexivity.
Qed.

Lemma run_get_params url headers params tr :
  run (bind (requests_get_params url headers params) response_json) tr
  = (answer tr (mkRequest GET url headers (Some params) None false),
     [mkRequest GET url headers (Some params) None false]).
Proof.
  unfold run, bind, requests_get_params, send, answer, response_json. simpl.
  destruct (tr _) as [r|e]; simpl; [destruct (json_body r)|]; reflexivity.
Qed.

Lemma run_lift_ok {A} (r : result unit) (k : M A) tr :
  r = Ok tt -> run (bind (lift r) (fun _ => k)) tr = run k tr.
Proof. intros ->. reflexivity. Qed.

Lemma run_lift_raise {A} (r : result unit) (k : M A) e tr :
  r = Raise e -> run (bind (lift r) (fun _ => k)) tr = (Raise e, []).
Proof. intros ->. reflexivity. Qed.

(** ** image.py *)

(** C9: [create_config] is a total builder with no failure path; with
    no arguments it returns the record rotation "square", steps 50,
    negative_prompt "", lora_weight_url "", enhance_prompt false; for
    any arguments the record has exactly the five keys, each argument
    is stored under its key, and lora_weight_url is "". *)
Theorem create_config_shape :
  ImageGeneration.create_config None None None None
  = [ ("rotation", VStr "square"); ("steps", VInt 50);
      ("negative_prompt", VStr ""); ("lora_weight_url", VStr "");
      ("enhance_prompt", VBool false) ]
  /\ forall rotation steps negative_prompt enhance_prompt : option pyval,
       let config :=
         ImageGeneration.create_config rotation steps negative_prompt
           enhance_prompt in
       Dict.keys config
       = ["rotation"; "steps"; "negative_prompt"; "lora_weight_url";
          "enhance_prompt"]
       /\ Dict.get "lora_weight_url" config = Some (VStr "")
       /\ Dict.get "rotation" config = Some (arg (VStr "square") rotation)
       /\ Dict.get "steps" config = Some (arg (VInt 50) steps)
       /\ Dict.get "negative_prompt" config
          = Some (arg (VStr "") negative_prompt)
       /\ Dict.get "enhance_prompt" config
          = Some (arg (VBool false) enhance_prompt).
Proof.
  split; [reflexivity|].
  intros rotation steps negative_prompt enhance_prompt config.
  subst config. unfold ImageGeneration.create_config.
  repeat split; reflexivity.
Qed.

(** C8: for every task id, [get_result_sd_task] and
    [get_result_sdxl_task] send one POST to their fixed endpoint with
    the JSON body {task_id: task_id}, while the txt2img, txt2vid,
    txt2audio and embedding result calls send one GET, without a body,
    to a URL that ends in the task id. *)
Theorem result_calls_post_or_get :
  (forall (self : ImageGeneration.t) (task_id : pyval) headers tr,
     let sd :=
       mkRequest POST (ImageGeneration.base_url self +:+ "/ai/get_result_sd_task")
         (arg [] headers) None (Some (VDict [("task_id", task_id)])) false in
     let sdxl :=
       mkRequest POST
         (ImageGeneration.base_url self +:+ "/ai/get_result_sdxl_task")
         (arg [] headers) None (Some (VDict [("task_id", task_id)])) false in
     run (ImageGeneration.get_result_sd_task self task_id headers) tr
     = (answer tr sd, [sd])
     /\ run (ImageGeneration.get_result_sdxl_task self task_id headers) tr
        = (answer tr sdxl, [sdxl]))
  /\ (forall (self : ImageGeneration.t) (task_id : string) headers tr,
        let img :=
          mkRequest GET
            (ImageGeneration.base_url self +:+ "/ai/image_generation/"
             +:+ task_id) (arg [] headers) None None false in
        let vid :=
          mkRequest GET
            (ImageGeneration.base_url self +:+ "/ai/video_generation/"
             +:+ task_id) (arg [] headers) None None false in
        run (ImageGeneration.result_txt2img self task_id headers) tr
        = (answer tr img, [img])
        /\ run (ImageGeneration.result_txt2vid self task_id headers) tr
           = (answer tr vid, [vid]))
  /\ (forall (self : AudioGeneration.t) (task_id : string) headers tr,
        let aud :=
          mkRequest GET
            (AudioGeneration.base_url self +:+ "/ai/audio_generation/"
             +:+ task_id) (arg [] headers) None None false in
        run (AudioGeneration.result_txt2audio self task_id headers) tr
        = (answer tr aud, [aud]))
  /\ (forall (self : TextGeneration.t) (task_id : string) headers tr,
        let emb :=
          mkRequest GET
            (TextGeneration.base_url self +:+ "/ai/text_embedding/"
             +:+ task_id) (arg [] headers) None None false in
        run (TextGeneration.result_text_embedding self task_id headers) tr
        = (answer tr emb, [emb])).
Proof.
  repeat split; intros; cbv zeta;
    first [ apply run_post | apply run_get ].
Qed.

(** C5: every call of [get_lora_models] sends one GET to /lora/ whose
    query-parameter record has exactly the two keys type and cate,
    holding the arguments, and None for an argument that was left out:
    a parameter without a value is kept in the record. *)
Theorem get_lora_models_params :
  forall (self : ImageGeneration.t) headers tr,
    let req params :=
      mkRequest GET (ImageGeneration.base_url self +:+ "/lora/")
        (arg [] headers) (Some params) None false in
    (forall type cate : option pyval,
       let params := [("type", arg VNone type); ("cate", arg VNone cate)] in
       run (ImageGeneration.get_lora_models self type cate headers) tr
       = (answer tr (req params), [req params])
       /\ Dict.keys params = ["type"; "cate"])
    /\ sent (ImageGeneration.get_lora_models self None None headers) tr
       = [req [("type", VNone); ("cate", VNone)]]
    /\ (forall type : pyval,
          sent (ImageGeneration.get_lora_models self (Some type) None headers) tr
          = [req [("type", type); ("cate", VNone)]])
    /\ (forall cate : pyval,
          sent (ImageGeneration.get_lora_models self None (Some cate) headers) tr
          = [req [("type", VNone); ("cate", cate)]]).
Proof.
  intros self headers tr req.
  assert (Hrun : forall type cate : option pyval,
             run (ImageGeneration.get_lora_models self type cate headers) tr
             = (answer tr (req [("type", arg VNone type);
                                ("cate", arg VNone cate)]),
                [req [("type", arg VNone type); ("cate", arg VNone cate)]])).
  { intros type cate. apply run_get_params. }
  split; [intros type cate params; split; [apply Hrun | reflexivity]|].
  unfold sent.
  split; [rewrite Hrun; reflexivity|].
  split; intros v; rewrite Hrun; reflexivity.
Qed.

(** C1: the configs record that [create_txt2img] posts holds the width
    under the key spelt with U+01B0 in the source; there is no key
    [width].  The seven other keys are the ones the specification
    names, each holding the caller's value or its default. *)
Theorem create_txt2img_width_key :
  forall (self : ImageGeneration.t) (prompt : pyval)
    (model lora width height steps seed negative_prompt enhance_prompt
       : option pyval) headers tr,
    exists req configs,
      sent (ImageGeneration.create_txt2img self prompt model lora width height
              steps seed negative_prompt enhance_prompt headers) tr = [req]
      /\ posted_prompt req = Some prompt
      /\ posted_configs req = Some configs
      /\ Dict.keys configs
         = ["model"; "lora"; "height"; "ưidth"; "steps"; "negative_prompt";
            "seed"; "enhance_prompt"]
      /\ Dict.get "width" configs = None
      /\ Dict.get "ưidth" configs = Some (arg (VInt 1024) width)
      /\ Dict.get "model" configs = Some (arg (VStr "sdxl-lightning") model)
      /\ Dict.get "lora" configs = Some (arg (VStr "") lora)
      /\ Dict.get "height" configs = Some (arg (VInt 1024) height)
      /\ Dict.get "steps" configs = Some (arg (VInt 8) steps)
      /\ Dict.get "seed" configs = Some (arg (VInt (-1)) seed)
      /\ Dict.get "negative_prompt" configs
         = Some (arg (VStr "") negative_prompt)
      /\ Dict.get "enhance_prompt" configs
         = Some (arg (VBool false) enhance_prompt).
Proof.
  intros. unfold sent, ImageGeneration.create_txt2img. cbv zeta.
  rewrite run_post. simpl. eexists _, _.
  split; [reflexivity|]. split; [reflexivity|]. split; [reflexivity|].
  repeat split; reflexivity.
Qed.

(** ** Dictionaries *)

Section DictFacts.
Implicit Types (d o : pydict) (k : string) (v : pyval).
#[local] Arguments Dict.keys : simpl never.

Lemma keys_nil : Dict.keys [] = [].
Proof. reflexivity. Qed.

Lemma keys_cons k v d : Dict.keys ((k, v) :: d) = k :: Dict.keys d.
Proof. reflexivity. Qed.

Lemma get_None_not_in k d : Dict.get k d = None <-> k ∉ Dict.keys d.
Proof.
  induction d as [|[k' v'] d IH]; simpl.
  - split; [intros _; apply not_elem_of_nil | reflexivity].
  - rewrite keys_cons, not_elem_of_cons.
    destruct (decide (k' = k)) as [->|Hk].
    + rewrite bool_decide_eq_true_2 by done. split; [discriminate | tauto].
    + rewrite bool_decide_eq_false_2 by done. rewrite IH.
      split; [intros ?; split; [congruence | done] | tauto].
Qed.

Lemma get_set_eq k v d : Dict.get k (Dict.set k v d) = Some v.
Proof.
  induction d as [|[k' v'] d IH]; simpl.
  - by rewrite bool_decide_eq_true_2.
  - destruct (decide (k' = k)) as [->|Hk].
    + rewrite bool_decide_eq_true_2 by done. simpl.
      by rewrite bool_decide_eq_true_2.
    + rewrite bool_decide_eq_false_2 by done. simpl.
      by rewrite bool_decide_eq_false_2.
Qed.

Lemma get_set_ne k k' v d :
  k ≠ k' -> Dict.get k' (Dict.set k v d) = Dict.get k' d.
Proof.
  intros Hne. induction d as [|[k0 v0] d IH]; simpl.
  - by rewrite bool_decide_eq_false_2.
  - destruct (decide (k0 = k)) as [->|Hk].
    + rewrite bool_decide_eq_true_2 by done. simpl.
      by rewrite !bool_decide_eq_false_2.
    + rewrite bool_decide_eq_false_2 by done. simpl. by rewrite IH.
Qed.

Lemma keys_set k v d :
  Dict.keys (Dict.set k v d)
  = if bool_decide (k ∈ Dict.keys d) then Dict.keys d
    else (Dict.keys d ++ [k])%list.
Proof.
  induction d as [|[k0 v0] d IH]; [done|].
  cbn [Dict.set]. rewrite keys_cons.
  destruct (decide (k0 = k)) as [->|Hk].
  - rewrite bool_decide_eq_true_2 by done.
    rewrite bool_decide_eq_true_2 by left. done.
  - rewrite bool_decide_eq_false_2 by done.
    rewrite keys_cons, IH.
    destruct (decide (k ∈ Dict.keys d)) as [Hin|Hin].
    + rewrite bool_decide_eq_true_2 by done.
      rewrite bool_decide_eq_true_2 by (by right). done.
    + rewrite bool_decide_eq_false_2 by done.
      rewrite bool_decide_eq_false_2; [done|].
      rewrite not_elem_of_cons. split; [congruence | done].
Qed.

Lemma elem_of_keys_set k k' v d :
  k' ∈ Dict.keys (Dict.set k v d) <-> k' = k \/ k' ∈ Dict.keys d.
Proof.
  rewrite keys_set.
  destruct (decide (k ∈ Dict.keys d)) as [Hin|Hin].
  - rewrite bool_decide_eq_true_2 by done.
    split; [tauto | intros [->|?]; done].
  - rewrite bool_decide_eq_false_2 by done.
    rewrite elem_of_app, list_elem_of_singleton. tauto.
Qed.

Lemma NoDup_keys_set k v d :
  NoDup (Dict.keys d) -> NoDup (Dict.keys (Dict.set k v d)).
Proof.
  intros Hnd. rewrite keys_set.
  destruct (decide (k ∈ Dict.keys d)) as [Hin|Hin].
  - by rewrite bool_decide_eq_true_2.
  - rewrite bool_decide_eq_false_2 by done.
    apply NoDup_app. split; [done|]. split.
    + intros x Hx ->%list_elem_of_singleton. done.
    + apply NoDup_singleton.
Qed.

Lemma elem_of_keys_update k d o :
  k ∈ Dict.keys (Dict.update d o) <-> k ∈ Dict.keys d \/ k ∈ Dict.keys o.
Proof.
  unfold Dict.update. revert d.
  induction o as [|[k0 v0] o IH]; intros d; simpl.
  - rewrite keys_nil, elem_of_nil. tauto.
  - rewrite IH, elem_of_keys_set, keys_cons, elem_of_cons. tauto.
Qed.

Lemma NoDup_keys_update d o :
  NoDup (Dict.keys d) -> NoDup (Dict.keys (Dict.update d o)).
Proof.
  unfold Dict.update. revert d.
  induction o as [|[k0 v0] o IH]; intros d Hd; simpl; [done|].
  apply IH, NoDup_keys_set, Hd.
Qed.

Lemma get_update k d o :
  NoDup (Dict.keys o) ->
  Dict.get k (Dict.update d o)
  = match Dict.get k o with
    | Some v => Some v
    | None => Dict.get k d
    end.
Proof.
  unfold Dict.update. revert d.
  induction o as [|[k0 v0] o IH]; intros d Hnd; simpl; [done|].
  rewrite keys_cons in Hnd. apply NoDup_cons in Hnd as [Hk0 Hnd].
  rewrite IH by done.
  destruct (decide (k0 = k)) as [->|Hk].
  - rewrite bool_decide_eq_true_2 by done.
    apply get_None_not_in in Hk0. rewrite Hk0. apply get_set_eq.
  - rewrite bool_decide_eq_false_2 by done.
    destruct (Dict.get k o); [done|]. by apply get_set_ne.
Qed.

End DictFacts.

(** ** Substrings *)

Lemma substring_skip_prefix (p s : string) (i m : nat) :
  String.substring (String.length p + i) m (p +:+ s) = String.substring i m s.
Proof. induction p as [|a p IH]; simpl; [reflexivity | apply IH]. Qed.

Lemma contains_str_after_prefix (n p s : string) :
  n <> "" -> contains_str n s = true -> contains_str n (p +:+ s) = true.
Proof.
  unfold contains_str. intros Hn Hs.
  destruct (String.index 0 n s) as [i|] eqn:Hi; [|discriminate].
  apply String.index_correct1 in Hi.
  destruct (String.index 0 n (p +:+ s)) eqn:Hp; [reflexivity|].
  exfalso.
  apply (String.index_correct3 0 (String.length p + i) n (p +:+ s) Hp Hn);
    [lia|].
  rewrite substring_skip_prefix. exact Hi.
Qed.

(** ** audio.py *)

Lemma valids_getitem_known model :
  model ∈ audio_models ->
  AudioGeneration.valids_getitem model = Ok (allow_list model).
Proof.
  unfold audio_models. rewrite !elem_of_cons, elem_of_nil.
  intros [->|[->|[->|[]]]]; vm_compute; reflexivity.
Qed.

Lemma valids_getitem_unknown model :
  model ∉ audio_models ->
  AudioGeneration.valids_getitem model = Raise (KeyError model).
Proof.
  unfold audio_models. rewrite !not_elem_of_cons. intros (Ha & Hm & Hb & _).
  unfold AudioGeneration.valids_getitem, AudioGeneration._kwargs_valids.
  rewrite !lookup_insert_ne by done. rewrite lookup_singleton_ne by done.
  reflexivity.
Qed.

Lemma check_kwargs_allowed model names items :
  AudioGeneration.valids_getitem model = Ok names ->
  (forall k, k ∈ Dict.keys items -> k ∈ names) ->
  AudioGeneration.check_kwargs model items = Ok tt.
Proof.
  intros Hv. induction items as [|[k v] items IH]; intros Hall; simpl.
  - reflexivity.
  - rewrite Hv. rewrite bool_decide_eq_true_2 by (apply Hall; left).
    simpl. apply IH. intros k' Hk'. apply Hall. by right.
Qed.

Lemma check_kwargs_rejected model names items :
  AudioGeneration.valids_getitem model = Ok names ->
  (exists k, k ∈ Dict.keys items /\ k ∉ names) ->
  exists k, k ∈ Dict.keys items /\ (k ∉ names)
    /\ AudioGeneration.check_kwargs model items
       = Raise (ValueError (AudioGeneration.unsupported_msg model k names)).
Proof.
  intros Hv. induction items as [|[k v] items IH]; intros (k' & Hin & Hbad).
  - by apply elem_of_nil in Hin.
  - simpl. rewrite Hv. destruct (decide (k ∈ names)) as [Hk|Hk].
    + rewrite bool_decide_eq_true_2 by done. simpl.
      apply elem_of_cons in Hin as [->|Hin]; [done|].
      destruct IH as (k0 & Hin0 & Hbad0 & Hrun); [by exists k'|].
      exists k0. split; [by right | done].
    + rewrite bool_decide_eq_false_2 by done. simpl.
      exists k. split; [by left | done].
Qed.

Lemma check_kwargs_unknown_model model k v items :
  model ∉ audio_models ->
  AudioGeneration.check_kwargs model ((k, v) :: items) = Raise (KeyError model).
Proof. intros Hm. simpl. by rewrite valids_getitem_unknown. Qed.

Lemma unsupported_msg_names model k name :
  name ∈ allow_list model ->
  contains_str name
    (AudioGeneration.unsupported_msg model k (allow_list model)) = true.
Proof.
  unfold allow_list. case_bool_decide as Hb; [by intros ?%elem_of_nil|].
  intros Hname. unfold AudioGeneration.unsupported_msg.
  assert (Hne : name <> "").
  { intros ->. revert Hname. rewrite !elem_of_cons, elem_of_nil.
    intros [?|[?|[?|[]]]]; discriminate. }
  do 4 (apply contains_str_after_prefix; [exact Hne|]).
  revert Hname. rewrite !elem_of_cons, elem_of_nil.
  intros [->|[->|[->|[]]]]; vm_compute; reflexivity.
Qed.

Lemma get_backfill_eq k dflt kwargs :
  Dict.get k (AudioGeneration.backfill k dflt kwargs)
  = Some (default dflt (Dict.get k kwargs)).
Proof. unfold AudioGeneration.backfill. rewrite get_set_eq. by destruct (Dict.get k kwargs). Qed.

Lemma get_backfill_ne k k' dflt kwargs :
  k <> k' ->
  Dict.get k' (AudioGeneration.backfill k dflt kwargs) = Dict.get k' kwargs.
Proof. intros Hne. unfold AudioGeneration.backfill. by apply get_set_ne. Qed.

Lemma elem_of_keys_backfill k k' dflt kwargs :
  k' ∈ Dict.keys (AudioGeneration.backfill k dflt kwargs)
  <-> k' = k \/ k' ∈ Dict.keys kwargs.
Proof. unfold AudioGeneration.backfill. apply elem_of_keys_set. Qed.

Lemma NoDup_keys_backfill k dflt kwargs :
  NoDup (Dict.keys kwargs) ->
  NoDup (Dict.keys (AudioGeneration.backfill k dflt kwargs)).
Proof. unfold AudioGeneration.backfill. apply NoDup_keys_set. Qed.

(** The request [create_txt2audio] posts once the keyword arguments
    have passed the check. *)
Lemma create_txt2audio_posts (self : AudioGeneration.t) prompt model headers
    kwargs tr :
  AudioGeneration.check_kwargs (arg "musicgen" model) kwargs = Ok tt ->
  let m := arg "musicgen" model in
  let req :=
    mkRequest POST (AudioGeneration.base_url self +:+ "/ai/audio_generation")
      (arg [] headers) None
      (Some (VDict
         [ ("prompt", prompt);
           ("configs",
            VDict (AudioGeneration.build_configs m
                     (AudioGeneration.default_kwargs m kwargs))) ]))
      false in
  run (AudioGeneration.create_txt2audio self prompt model headers kwargs) tr
  = (answer tr req, [req]).
Proof.
  intros Hok m req. unfold AudioGeneration.create_txt2audio. cbv zeta.
  rewrite (run_lift_ok _ _ _ Hok). apply run_post.
Qed.

(** C2: for audiogen and musicgen and keyword arguments within the
    allow-list, the posted configs hold model, duration, top_k and
    top_p and nothing else; each of the three holds the caller's value
    when one was passed and otherwise the default 5, 15, 0.9.  With no
    keyword arguments the configs are model musicgen, duration 5,
    top_k 15, top_p 0.9; with only top_k=99 passed they hold top_k 99,
    duration 5, top_p 0.9. *)
Theorem create_txt2audio_defaults :
  (forall (self : AudioGeneration.t) prompt (model : option string) headers
      (kwargs : pydict) tr,
      let m := arg "musicgen" model in
      m = "audiogen" \/ m = "musicgen" ->
      NoDup (Dict.keys kwargs) ->
      (forall k, k ∈ Dict.keys kwargs -> k ∈ ["duration"; "top_k"; "top_p"]) ->
      exists req configs,
        run (AudioGeneration.create_txt2audio self prompt model headers kwargs)
          tr = (answer tr req, [req])
        /\ req_method req = POST
        /\ posted_prompt req = Some prompt
        /\ posted_configs req = Some configs
        /\ Dict.keys configs ≡ₚ ["model"; "duration"; "top_k"; "top_p"]
        /\ Dict.get "model" configs = Some (VStr m)
        /\ Dict.get "duration" configs
           = Some (default (VInt 5) (Dict.get "duration" kwargs))
        /\ Dict.get "top_k" configs
           = Some (default (VInt 15) (Dict.get "top_k" kwargs))
        /\ Dict.get "top_p" configs
           = Some (default (VFloat 9 (-1)) (Dict.get "top_p" kwargs)))
  /\ (forall (self : AudioGeneration.t) prompt headers tr,
        exists req,
          sent (AudioGeneration.create_txt2audio self prompt (Some "musicgen")
                  headers []) tr = [req]
          /\ posted_configs req
             = Some [ ("model", VStr "musicgen"); ("duration", VInt 5);
                      ("top_k", VInt 15); ("top_p", VFloat 9 (-1)) ])
  /\ (forall (self : AudioGeneration.t) prompt headers tr,
        exists req configs,
          sent (AudioGeneration.create_txt2audio self prompt (Some "musicgen")
                  headers [("top_k", VInt 99)]) tr = [req]
          /\ posted_configs req = Some configs
          /\ Dict.get "model" configs = Some (VStr "musicgen")
          /\ Dict.get "top_k" configs = Some (VInt 99)
          /\ Dict.get "duration" configs = Some (VInt 5)
          /\ Dict.get "top_p" configs = Some (VFloat 9 (-1))).
Proof.
  split; [|split].
  - intros self prompt model headers kwargs tr m Hm Hnd Hall.
    assert (Hmodels : m ∈ audio_models).
    { unfold audio_models. destruct Hm as [-> | ->]; set_solver. }
    assert (Hallow : allow_list m = ["duration"; "top_k"; "top_p"]).
    { destruct Hm as [-> | ->]; reflexivity. }
    assert (Hok : AudioGeneration.check_kwargs m kwargs = Ok tt).
    { apply (check_kwargs_allowed m (allow_list m));
        [by apply valids_getitem_known | by rewrite Hallow]. }
    pose proof (create_txt2audio_posts self prompt model headers kwargs tr Hok)
      as Hrun.
    cbv zeta in Hrun. fold m in Hrun.
    eexists _, _. split; [exact Hrun|].
    split; [reflexivity|]. split; [reflexivity|]. split; [reflexivity|].
    assert (Hdef : AudioGeneration.default_kwargs m kwargs
                   = AudioGeneration.backfill "top_p" (VFloat 9 (-1))
                       (AudioGeneration.backfill "top_k" (VInt 15)
                          (AudioGeneration.backfill "duration" (VInt 5) kwargs))).
    { unfold AudioGeneration.default_kwargs.
      destruct Hm as [-> | ->]; reflexivity. }
    rewrite Hdef. unfold AudioGeneration.build_configs.
    assert (Hnd' : NoDup (Dict.keys
                     (AudioGeneration.backfill "top_p" (VFloat 9 (-1))
                        (AudioGeneration.backfill "top_k" (VInt 15)
                           (AudioGeneration.backfill "duration" (VInt 5)
                              kwargs))))).
    { by do 3 apply NoDup_keys_backfill. }
    split.
    { apply NoDup_Permutation.
      - apply NoDup_keys_update. rewrite keys_cons, keys_nil.
        apply NoDup_singleton.
      - apply (bool_decide_unpack _). vm_compute. exact I.
      - intros k. rewrite elem_of_keys_update, !elem_of_keys_backfill.
        rewrite keys_cons, keys_nil, !elem_of_cons, !elem_of_nil.
        split; [|tauto].
        intros [[?|[]]|[?|[?|[?|Hk]]]]; try tauto.
        apply Hall in Hk. revert Hk.
        rewrite !elem_of_cons, elem_of_nil. tauto. }
    rewrite !get_update by exact Hnd'.
    rewrite get_backfill_eq.
    rewrite !(get_backfill_ne "top_p") by discriminate.
    rewrite get_backfill_eq.
    rewrite !(get_backfill_ne "top_k") by discriminate.
    rewrite get_backfill_eq.
    rewrite !(get_backfill_ne "duration") by discriminate.
    assert (Hmodel : Dict.get "model" kwargs = None).
    { apply get_None_not_in. intros Hk%Hall. revert Hk.
      rewrite !elem_of_cons, elem_of_nil.
      intros [?|[?|[?|[]]]]; discriminate. }
    rewrite Hmodel. repeat split; reflexivity.
  - intros self prompt headers tr. unfold sent.
    rewrite (create_txt2audio_posts self prompt (Some "musicgen") headers [] tr)
      by reflexivity.
    eexists. split; reflexivity.
  - intros self prompt headers tr. unfold sent.
    rewrite (create_txt2audio_posts self prompt (Some "musicgen") headers
               [("top_k", VInt 99)] tr) by (vm_compute; reflexivity).
    eexists _, _. split; [reflexivity|]. split; [reflexivity|].
    repeat split; reflexivity.
Qed.

(** A call of musicgen that passes a duration and nothing else. *)
Lemma create_txt2audio_defaults_witness :
  exists req configs,
    run (AudioGeneration.create_txt2audio audio_client
           (VStr "rain on a tin roof") (Some "musicgen") None
           [("duration", VInt 8)]) transport_ok
    = (answer transport_ok req, [req])
    /\ req_method req = POST
    /\ posted_prompt req = Some (VStr "rain on a tin roof")
    /\ posted_configs req = Some configs
    /\ Dict.keys configs ≡ₚ ["model"; "duration"; "top_k"; "top_p"]
    /\ Dict.get "model" configs = Some (VStr "musicgen")
    /\ Dict.get "duration" configs = Some (VInt 8)
    /\ Dict.get "top_k" configs = Some (VInt 15)
    /\ Dict.get "top_p" configs = Some (VFloat 9 (-1)).
Proof.
  apply (proj1 create_txt2audio_defaults audio_client
           (VStr "rain on a tin roof") (Some "musicgen") None
           [("duration", VInt 8)] transport_ok).
  - right. reflexivity.
  - apply (bool_decide_unpack _). vm_compute. exact I.
  - intros k Hk. apply (bool_decide_unpack _).
    revert Hk. rewrite keys_cons, keys_nil, list_elem_of_singleton.
    intros ->. vm_compute. exact I.
Defined.

(** C3: for a model among audiogen, musicgen and bark, a keyword
    argument outside the model's allow-list makes the call raise
    [ValueError], before anything is sent, with a message in which
    every accepted name occurs; keyword arguments all within the
    allow-list raise nothing and the request is posted.  The call with
    model bark and duration=5 raises [ValueError]. *)
Theorem create_txt2audio_rejects_kwargs :
  (forall (self : AudioGeneration.t) prompt (model : option string) headers
      (kwargs : pydict) tr,
      let m := arg "musicgen" model in
      let call :=
        AudioGeneration.create_txt2audio self prompt model headers kwargs in
      m ∈ audio_models ->
      ((exists k, k ∈ Dict.keys kwargs /\ k ∉ allow_list m) ->
         exists msg,
           run call tr = (Raise (ValueError msg), [])
           /\ forall name, name ∈ allow_list m -> contains_str name msg = true)
      /\ ((forall k, k ∈ Dict.keys kwargs -> k ∈ allow_list m) ->
            exists req, run call tr = (answer tr req, [req])))
  /\ (forall (self : AudioGeneration.t) prompt headers tr,
        fails_validation
          (AudioGeneration.create_txt2audio self prompt (Some "bark") headers
             [("duration", VInt 5)]) tr).
Proof.
  split.
  - intros self prompt model headers kwargs tr m call Hm.
    pose proof (valids_getitem_known m Hm) as Hv. split.
    + intros Hbad.
      destruct (check_kwargs_rejected m _ kwargs Hv Hbad)
        as (k & _ & _ & Hchk).
      exists (AudioGeneration.unsupported_msg m k (allow_list m)). split.
      * subst call. unfold AudioGeneration.create_txt2audio. cbv zeta.
        apply run_lift_raise. exact Hchk.
      * intros name Hname. by apply unsupported_msg_names.
    + intros Hall. eexists. subst call.
      apply create_txt2audio_posts.
      by apply (check_kwargs_allowed m (allow_list m)).
  - intros self prompt headers tr. eexists. reflexivity.
Qed.

(** The call with model audiogen and the keyword [volume]. *)
Lemma create_txt2audio_rejects_kwargs_witness :
  exists msg,
    run (AudioGeneration.create_txt2audio audio_client (VStr "birdsong")
           (Some "audiogen") None [("top_k", VInt 3); ("volume", VInt 11)])
      transport_ok
    = (Raise (ValueError msg), [])
    /\ forall name,
         name ∈ allow_list "audiogen" -> contains_str name msg = true.
Proof.
  apply (proj1 create_txt2audio_rejects_kwargs audio_client (VStr "birdsong")
           (Some "audiogen") None [("top_k", VInt 3); ("volume", VInt 11)]
           transport_ok).
  - apply (bool_decide_unpack _). vm_compute. exact I.
  - exists "volume". split; apply (bool_decide_unpack _); vm_compute; exact I.
Defined.

(** C10: for a model string that is none of audiogen, musicgen and
    bark, a call with at least one keyword argument raises [KeyError]
    on the model name, not [ValueError], before anything is sent; a
    call with no keyword argument raises nothing locally and posts the
    configs {model: model}. *)
Theorem create_txt2audio_unknown_model :
  forall (self : AudioGeneration.t) prompt (model : string) headers
    (kwargs : pydict) tr,
    let call :=
      AudioGeneration.create_txt2audio self prompt (Some model) headers kwargs
    in
    let req :=
      mkRequest POST (AudioGeneration.base_url self +:+ "/ai/audio_generation")
        (arg [] headers) None
        (Some (VDict [ ("prompt", prompt);
                       ("configs", VDict [("model", VStr model)]) ]))
        false in
    model ∉ audio_models ->
    (kwargs <> [] -> run call tr = (Raise (KeyError model), []))
    /\ (kwargs = [] -> run call tr = (answer tr req, [req])).
Proof.
  intros self prompt model headers kwargs tr call req Hm. split.
  - intros Hne. destruct kwargs as [|[k v] rest]; [done|].
    subst call. unfold AudioGeneration.create_txt2audio. cbv zeta.
    apply run_lift_raise. simpl arg. by apply check_kwargs_unknown_model.
  - intros ->. subst call req.
    rewrite (create_txt2audio_posts self prompt (Some model) headers [] tr)
      by reflexivity.
    simpl arg. unfold AudioGeneration.default_kwargs.
    revert Hm. unfold audio_models. rewrite !not_elem_of_cons.
    intros (Ha & Hmu & _).
    rewrite !bool_decide_eq_false_2 by done. reflexivity.
Qed.

(** An unknown model, once with a keyword argument and once without. *)
Lemma create_txt2audio_unknown_model_witness :
  run (AudioGeneration.create_txt2audio audio_client (VStr "birdsong")
         (Some "riffusion") None [("duration", VInt 5)]) transport_ok
  = (Raise (KeyError "riffusion"), [])
  /\ sent (AudioGeneration.create_txt2audio audio_client (VStr "birdsong")
             (Some "riffusion") None []) transport_ok
     = [ mkRequest POST "https://api.example/ai/audio_generation" [] None
           (Some (VDict [ ("prompt", VStr "birdsong");
                          ("configs", VDict [("model", VStr "riffusion")]) ]))
           false ].
Proof.
  split.
  - apply (create_txt2audio_unknown_model audio_client (VStr "birdsong")
             "riffusion" None [("duration", VInt 5)] transport_ok).
    + apply (bool_decide_unpack _). vm_compute. exact I.
    + discriminate.
  - unfold sent.
    rewrite (proj2 (create_txt2audio_unknown_model audio_client
                      (VStr "birdsong") "riffusion" None [] transport_ok
                      ltac:(apply (bool_decide_unpack _); vm_compute; exact I))
               eq_refl).
    reflexivity.
Defined.

(** ** llm.py *)

Lemma role_content_set :
  (list_to_set ["role"; "content"] : gset string) = {[ "role"; "content" ]}.
Proof. set_solver. Qed.

Lemma py_in_strs_str (r : string) (l : list string) :
  py_in_strs (VStr r) l = bool_decide (r ∈ l).
Proof.
  unfold py_in_strs. induction l as [|s l IH]; [done|].
  cbn [existsb py_eq_str]. rewrite IH.
  destruct (decide (r = s)) as [->|Hne].
  - rewrite (bool_decide_eq_true_2 (s = s)) by done.
    by rewrite (bool_decide_eq_true_2 (s ∈ s :: l)) by left.
  - rewrite (bool_decide_eq_false_2 (r = s)) by done. simpl.
    apply bool_decide_ext. rewrite elem_of_cons. tauto.
Qed.

Lemma py_in_strs_other (v : pyval) (l : list string) :
  (forall r, v <> VStr r) -> py_in_strs v l = false.
Proof.
  intros Hv. unfold py_in_strs. induction l as [|s l IH]; simpl; [done|].
  rewrite IH. destruct v; try done. by destruct (Hv s0).
Qed.

(** On a record, the loop body raises nothing when the record is a
    Message and [ValueError] when it is not. *)
Lemma check_message_record (kvs : pydict) :
  if is_message (VDict kvs)
  then TextGeneration.check_message (VDict kvs) = Ok tt
  else exists msg,
         TextGeneration.check_message (VDict kvs) = Raise (ValueError msg).
Proof.
  unfold is_message, TextGeneration.check_message. cbv zeta.
  rewrite role_content_set.
  destruct (decide (list_to_set (Dict.keys kvs)
                    = ({[ "role"; "content" ]} : gset string))) as [Hk|Hk].
  - rewrite bool_decide_eq_true_2 by done.
    rewrite bool_decide_eq_false_2 by (by intros []). cbn [andb].
    destruct (Dict.get "role" kvs) as [role|] eqn:Hrole.
    + destruct role as [| | | |r| |].
      5: { rewrite py_in_strs_str.
           destruct (bool_decide (r ∈ ["system"; "user"; "assistant"]));
             cbn [negb]; eauto. }
      all: rewrite py_in_strs_other by done; cbn [negb]; eauto.
    + apply get_None_not_in in Hrole. exfalso. apply Hrole.
      apply (elem_of_list_to_set (C := gset string)). rewrite Hk. set_solver.
  - rewrite bool_decide_eq_false_2 by done.
    rewrite bool_decide_eq_true_2 by done. cbn [andb]. eauto.
Qed.

Lemma check_each_records (ms : list pyval) :
  forallb is_record ms = true ->
  if forallb is_message ms
  then TextGeneration.check_each ms = Ok tt
  else exists msg, TextGeneration.check_each ms = Raise (ValueError msg).
Proof.
  induction ms as [|m ms IH]; [done|].
  cbn [forallb TextGeneration.check_each].
  intros [Hm Hms]%andb_prop. destruct m; try discriminate.
  pose proof (check_message_record kvs) as Hrec.
  destruct (is_message (VDict kvs)); cbn [andb].
  - rewrite Hrec. by apply IH.
  - destruct Hrec as [msg ->]. eauto.
Qed.

Lemma check_messages_records (messages : pyval) :
  records_if_list messages = true ->
  if is_message_list messages
  then TextGeneration.check_messages messages = Ok tt
  else exists msg,
         TextGeneration.check_messages messages = Raise (ValueError msg).
Proof.
  destruct messages; simpl; eauto. apply check_each_records.
Qed.

Lemma is_message_is_record (v : pyval) : is_message v = true -> is_record v = true.
Proof. by destruct v. Qed.

Lemma is_message_list_records (messages : pyval) :
  is_message_list messages = true -> records_if_list messages = true.
Proof.
  destruct messages; simpl; try done.
  induction xs as [|m ms IH]; simpl; [done|].
  intros [Hm Hms]%andb_prop. by rewrite (is_message_is_record m Hm), IH.
Qed.

Lemma check_messages_valid (messages : pyval) :
  is_message_list messages = true ->
  TextGeneration.check_messages messages = Ok tt.
Proof.
  intros Hv. pose proof (check_messages_records messages
                           (is_message_list_records _ Hv)) as H.
  by rewrite Hv in H.
Qed.

Lemma text_generation_run (self : TextGeneration.t) messages model temperature
    top_k top_p max_tokens headers tr :
  run (TextGeneration.text_generation self messages model temperature top_k
         top_p max_tokens headers) tr
  = match TextGeneration.check_messages messages with
    | Raise e => (Raise e, [])
    | Ok _ =>
        let req :=
          mkRequest POST (TextGeneration.base_url self +:+ "/ai/text_completion")
            (arg [] headers) None
            (Some (VDict
               [ ("messages", messages);
                 ("configs",
                  VDict (TextGeneration.completion_configs
                           (arg (VStr "gemma-7b") model)
                           (arg (VFloat 7 (-1)) temperature)
                           (arg (VInt 50) top_k)
                           (arg (VFloat 95 (-2)) top_p)
                           (arg (VInt 256) max_tokens))) ]))
            false in
        (answer tr req, [req])
    end.
Proof.
  unfold TextGeneration.text_generation. cbv zeta.
  destruct (TextGeneration.check_messages messages) as [[]|e] eqn:Hc.
  - rewrite (run_lift_ok _ _ _ eq_refl). apply run_post.
  - by apply run_lift_raise.
Qed.

Lemma next_created_log (self : TextGeneration.t) messages model temperature
    top_k top_p max_tokens headers tr :
  TextGeneration.check_messages messages = Ok tt ->
  (TextGeneration.next
     (TextGeneration.GenCreated self messages model temperature top_k top_p
        max_tokens headers) tr []).2
  = [stream_request self messages model temperature top_k top_p max_tokens
       headers].
Proof.
  intros Hc. unfold TextGeneration.next. rewrite Hc. cbv zeta.
  unfold requests_post_stream, send. simpl.
  fold (stream_request self messages model temperature top_k top_p max_tokens
          headers).
  destruct (tr _) as [r|e]; [|done].
  destruct (raise_for_status r); [|done].
  by destruct (TextGeneration.resume_lines (iter_lines r)).
Qed.

(** C4, amended: for every [messages] argument that is not a list, or
    is a list of records, [text_generation] raises [ValueError] before
    anything is sent if and only if [messages] is not a list of Message
    records (key-set exactly role and content, role one of system,
    user, assistant); so does the first resumption of the generator
    that [generate_text_stream] returns.  In particular a list of
    records that holds a record which is not a Message is rejected
    with [ValueError]. *)
Theorem messages_validation :
  forall (self : TextGeneration.t) (messages : pyval)
    (model temperature top_k top_p max_tokens : option pyval) headers tr,
    let call :=
      TextGeneration.text_generation self messages model temperature top_k
        top_p max_tokens headers in
    let gen :=
      TextGeneration.generate_text_stream self messages model temperature
        top_k top_p max_tokens headers in
    records_if_list messages = true ->
    (fails_validation call tr <-> is_message_list messages = false)
    /\ (stream_fails_validation gen tr <-> is_message_list messages = false)
    /\ (forall ms m,
          messages = VList ms -> m ∈ ms -> is_message m = false ->
          fails_validation call tr /\ stream_fails_validation gen tr).
Proof.
  intros self messages model temperature top_k top_p max_tokens headers tr
    call gen Hrec.
  pose proof (check_messages_records messages Hrec) as Hchk.
  assert (Hcall : fails_validation call tr <-> is_message_list messages = false).
  { unfold fails_validation. subst call. rewrite text_generation_run.
    destruct (is_message_list messages).
    - rewrite Hchk. cbv zeta. split; [intros [msg [=]] | discriminate].
    - destruct Hchk as [msg ->]. split; [done | eauto]. }
  assert (Hgen : stream_fails_validation gen tr
                 <-> is_message_list messages = false).
  { unfold stream_fails_validation. subst gen.
    unfold TextGeneration.generate_text_stream.
    destruct (is_message_list messages).
    - split; [|discriminate]. intros [msg Hnext].
      pose proof (next_created_log self messages (arg (VStr "gemma-7b") model)
                    (arg (VFloat 7 (-1)) temperature) (arg (VInt 50) top_k)
                    (arg (VFloat 95 (-2)) top_p) (arg (VInt 256) max_tokens)
                    (arg [] headers) tr Hchk) as Hlog.
      rewrite Hnext in Hlog. discriminate.
    - destruct Hchk as [msg Hmsg]. split; [done|]. intros _. exists msg.
      unfold TextGeneration.next. by rewrite Hmsg. }
  split; [exact Hcall|]. split; [exact Hgen|].
  intros ms m -> Hin Hm.
  assert (Hlist : is_message_list (VList ms) = false).
  { simpl. apply not_true_is_false. intros Hall.
    rewrite forallb_forall in Hall.
    apply list_elem_of_In, Hall in Hin. congruence. }
  split; [by apply Hcall | by apply Hgen].
Qed.

(** A list whose second record carries the role [tool]. *)
Lemma messages_validation_witness :
  fails_validation
    (TextGeneration.text_generation text_client
       (VList [ VDict [("role", VStr "user"); ("content", VStr "Hello")];
                VDict [("role", VStr "tool"); ("content", VStr "42")] ])
       None None None None None None) transport_ok.
Proof.
  apply (proj1 (messages_validation text_client
                  (VList [ VDict [("role", VStr "user");
                                  ("content", VStr "Hello")];
                           VDict [("role", VStr "tool");
                                  ("content", VStr "42")] ])
                  None None None None None None transport_ok eq_refl)).
  vm_compute. reflexivity.
Defined.

(** The claim of C4 as it stands fails on a list that holds something
    other than a record: the list [[5]] is no list of Message records,
    and the call raises [AttributeError], not [ValueError]. *)
Lemma messages_validation_counterexample :
  ~ (forall (messages : pyval),
       fails_validation
         (TextGeneration.text_generation text_client messages None None None
            None None None) transport_ok
       <-> is_message_list messages = false).
Proof.
  intros Hclaim.
  destruct (proj2 (Hclaim (VList [VInt 5])) eq_refl) as [msg Hrun].
  vm_compute in Hrun. discriminate.
Qed.

(** ** The stream generator *)

Lemma consume_next_eq (fuel : nat) g g' tr log log' :
  TextGeneration.next g tr log = TextGeneration.next g' tr log' ->
  TextGeneration.consume (S fuel) g tr log
  = TextGeneration.consume (S fuel) g' tr log'.
Proof. intros Heq. simpl. by rewrite Heq. Qed.

Lemma consume_suspended (pending : list string) :
  forall (fuel : nat) tr log,
    (length pending < fuel)%nat ->
    TextGeneration.consume fuel (TextGeneration.GenSuspended pending) tr log
    = (non_empty_lines pending, Some TextGeneration.StopIteration, log).
Proof.
  induction pending as [|line rest IH]; intros fuel tr log Hfuel.
  - destruct fuel as [|fuel]; [simpl in Hfuel; lia | reflexivity].
  - destruct fuel as [|fuel]; [simpl in Hfuel; lia|].
    simpl in Hfuel. unfold non_empty_lines.
    destruct (decide (line = "")) as [->|Hline].
    + rewrite (consume_next_eq fuel _ (TextGeneration.GenSuspended rest) tr
                 log log) by reflexivity.
      rewrite IH by lia. reflexivity.
    + rewrite filter_cons_True by done.
      cbn [TextGeneration.consume TextGeneration.next
           TextGeneration.resume_lines].
      rewrite bool_decide_eq_true_2 by done.
      rewrite IH by lia. reflexivity.
Qed.

Lemma next_created_answered (self : TextGeneration.t) messages model
    temperature top_k top_p max_tokens headers tr response :
  let req :=
    stream_request self messages model temperature top_k top_p max_tokens
      headers in
  TextGeneration.check_messages messages = Ok tt ->
  tr req = Ok response ->
  TextGeneration.next
    (TextGeneration.GenCreated self messages model temperature top_k top_p
       max_tokens headers) tr []
  = match raise_for_status response with
    | Raise e => (TextGeneration.GenRaise e, TextGeneration.GenFinished, [req])
    | Ok _ =>
        TextGeneration.next
          (TextGeneration.GenSuspended (iter_lines response)) tr [req]
    end.
Proof.
  intros req Hc Htr. subst req. unfold stream_request in *.
  unfold TextGeneration.next, TextGeneration.completion_configs.
  rewrite Hc. unfold requests_post_stream, send. cbv beta zeta. cbn [app].
  rewrite Htr. by destruct (raise_for_status response).
Qed.

(** C6, amended: for valid messages, when the streaming POST is
    answered with a 4xx or 5xx status the generator raises on its first
    resumption, before it has yielded any line; with any other status,
    every 2xx among them, it yields exactly the non-empty lines of the
    body, in order, and then stops: the sequence is finite. *)
Theorem stream_status_and_lines :
  forall (self : TextGeneration.t) (messages : pyval)
    (model temperature top_k top_p max_tokens : option pyval) headers tr
    (response : response),
    let gen :=
      TextGeneration.generate_text_stream self messages model temperature
        top_k top_p max_tokens headers in
    let req :=
      stream_request self messages (arg (VStr "gemma-7b") model)
        (arg (VFloat 7 (-1)) temperature) (arg (VInt 50) top_k)
        (arg (VFloat 95 (-2)) top_p) (arg (VInt 256) max_tokens)
        (arg [] headers) in
    let streamed :=
      forall fuel, (length (iter_lines response) < fuel)%nat ->
        TextGeneration.consume fuel gen tr []
        = (non_empty_lines (iter_lines response),
           Some TextGeneration.StopIteration, [req]) in
    is_message_list messages = true ->
    tr req = Ok response ->
    (400 <= status_code response < 600 ->
       forall fuel, (0 < fuel)%nat ->
         TextGeneration.consume fuel gen tr []
         = ([], Some (TextGeneration.GenRaise
                        (HTTPError (status_code response))), [req]))
    /\ (~ 400 <= status_code response < 600 -> streamed)
    /\ (200 <= status_code response < 300 -> streamed).
Proof.
  intros self messages model temperature top_k top_p max_tokens headers tr
    response gen req streamed Hvalid Htr.
  pose proof (next_created_answered self messages _ _ _ _ _ _ tr response
                (check_messages_valid _ Hvalid) Htr) as Hnext.
  cbv zeta in Hnext. fold req in Hnext.
  assert (Hother : ~ 400 <= status_code response < 600 -> streamed).
  { intros Hst fuel Hfuel. destruct fuel as [|fuel]; [lia|].
    subst gen. unfold TextGeneration.generate_text_stream.
    rewrite (consume_next_eq fuel _
               (TextGeneration.GenSuspended (iter_lines response)) tr [] [req]).
    - by apply consume_suspended.
    - rewrite Hnext. unfold raise_for_status.
      by rewrite bool_decide_eq_false_2. }
  split; [|split; [exact Hother | intros Hst; apply Hother; lia]].
  intros Hst fuel Hfuel. destruct fuel as [|fuel]; [lia|].
  subst gen. unfold TextGeneration.generate_text_stream.
  cbn [TextGeneration.consume]. rewrite Hnext. unfold raise_for_status.
  by rewrite bool_decide_eq_true_2.
Qed.

(** The sample conversation against a server that answers 404, and
    against one that answers 200. *)
Lemma stream_status_and_lines_witness :
  TextGeneration.consume 1
    (TextGeneration.generate_text_stream text_client sample_messages None None
       None None None None) (transport_lines 404) []
  = ([], Some (TextGeneration.GenRaise (HTTPError 404)),
     [stream_request text_client sample_messages (VStr "gemma-7b")
        (VFloat 7 (-1)) (VInt 50) (VFloat 95 (-2)) (VInt 256) []])
  /\ TextGeneration.consume 4
       (TextGeneration.generate_text_stream text_client sample_messages None
          None None None None None) (transport_lines 200) []
     = (["data: Hel"; "data: lo"], Some TextGeneration.StopIteration,
        [stream_request text_client sample_messages (VStr "gemma-7b")
           (VFloat 7 (-1)) (VInt 50) (VFloat 95 (-2)) (VInt 256) []]).
Proof.
  split.
  - apply (proj1 (stream_status_and_lines text_client sample_messages None
                    None None None None None (transport_lines 404)
                    (mkResponse 404 None ["data: Hel"; ""; "data: lo"])
                    eq_refl eq_refl)).
    + simpl. lia.
    + lia.
  - apply (proj2 (proj2 (stream_status_and_lines text_client sample_messages
                           None None None None None None (transport_lines 200)
                           (mkResponse 200 None ["data: Hel"; ""; "data: lo"])
                           eq_refl eq_refl))).
    + simpl. lia.
    + simpl. lia.
Defined.

(** The claim of C6 as it stands fails on a status that is neither 2xx
    nor an error: answered with 304, the generator raises nothing and
    yields the first line of the body. *)
Lemma stream_status_counterexample :
  ~ (200 <= 304 < 300)
  /\ TextGeneration.next
       (TextGeneration.generate_text_stream text_client sample_messages None
          None None None None None) (transport_lines 304) []
     = (TextGeneration.Yield "data: Hel",
        TextGeneration.GenSuspended [""; "data: lo"],
        [stream_request text_client sample_messages (VStr "gemma-7b")
           (VFloat 7 (-1)) (VInt 50) (VFloat 95 (-2)) (VInt 256) []]).
Proof. split; [lia | vm_compute; reflexivity]. Qed.

(** ** info.py *)

Lemma get_models_run (self : FlexstackInfo.t) (task : string) headers tr :
  run (FlexstackInfo.get_models self task headers) tr
  = if bool_decide (task ∈ FlexstackInfo.valid_tasks)
    then
      let req :=
        mkRequest GET (FlexstackInfo.base_url self +:+ "/models/" +:+ task)
          (arg [] headers) None None false in
      (answer tr req, [req])
    else (Raise (ValueError FlexstackInfo.msg_bad_task), []).
Proof.
  unfold FlexstackInfo.get_models. cbv zeta.
  destruct (bool_decide (task ∈ FlexstackInfo.valid_tasks)); cbn [negb].
  - apply run_get.
  - reflexivity.
Qed.

(** C7: [get_models] raises [ValueError], before anything is sent, if
    and only if the task is none of image_generation, video_generation,
    text_completion, audio_generation and text_embedding; every one of
    the five names occurs in the message; for one of the five the call
    sends one GET to base/models/task. *)
Theorem get_models_validation :
  forall (self : FlexstackInfo.t) (task : string) headers tr,
    let tasks :=
      [ "image_generation"; "video_generation"; "text_completion";
        "audio_generation"; "text_embedding" ] in
    let call := FlexstackInfo.get_models self task headers in
    let req :=
      mkRequest GET (FlexstackInfo.base_url self +:+ "/models/" +:+ task)
        (arg [] headers) None None false in
    (fails_validation call tr <-> task ∉ tasks)
    /\ (task ∉ tasks ->
          exists msg,
            run call tr = (Raise (ValueError msg), [])
            /\ forall name, name ∈ tasks -> contains_str name msg = true)
    /\ (task ∈ tasks -> run call tr = (answer tr req, [req])).
Proof.
  intros self task headers tr tasks call req.
  change tasks with FlexstackInfo.valid_tasks.
  pose proof (get_models_run self task headers tr) as Hrun. fold call in Hrun.
  destruct (decide (task ∈ FlexstackInfo.valid_tasks)) as [Hin|Hout].
  - rewrite bool_decide_eq_true_2 in Hrun by done. cbv zeta in Hrun.
    split; [|split; [done | intros _; exact Hrun]].
    unfold fails_validation. rewrite Hrun.
    split; [intros [msg [=]] | done].
  - rewrite bool_decide_eq_false_2 in Hrun by done.
    split; [|split; [|done]].
    + unfold fails_validation. rewrite Hrun. split; [done | eauto].
    + intros _. exists FlexstackInfo.msg_bad_task. split; [exact Hrun|].
      intros name. unfold FlexstackInfo.valid_tasks.
      rewrite !elem_of_cons, elem_of_nil.
      intros [->|[->|[->|[->|[->|[]]]]]]; vm_compute; reflexivity.
Qed.

(** The task [bogus], and the task [text_completion]. *)
Lemma get_models_validation_witness :
  fails_validation (FlexstackInfo.get_models info_client "bogus" None)
    transport_ok
  /\ sent (FlexstackInfo.get_models info_client "text_completion" None)
       transport_ok
     = [ mkRequest GET "https://api.example/models/text_completion" [] None
           None false ].
Proof.
  split.
  - apply (proj1 (get_models_validation info_client "bogus" None transport_ok)).
    apply (bool_decide_unpack _). vm_compute. exact I.
  - unfold sent.
    rewrite (proj2 (proj2 (get_models_validation info_client "text_completion"
                             None transport_ok))).
    + reflexivity.
    + apply (bool_decide_unpack _). vm_compute. exact I.
Defined.

(** * Further properties of the client *)

(** ** The calls that validate nothing *)

(** Every such call hands the transport one request, fixed by the
    arguments alone, and returns what comes back for it. *)
Lemma perform_run (c : plain_call) :
  exists req,
    req_headers req = arg [] (call_headers c)
    /\ req_stream req = false
    /\ forall tr, run (perform c) tr = (answer tr req, [req]).
Proof.
  destruct c; simpl perform; simpl call_headers;
    (eexists; split; [|split; [|intros tr;
       first [ apply run_post | apply run_get | apply run_get_params ]]];
     reflexivity).
Qed.

(** X1: a call that validates nothing does not look at the status of
    the answer: whatever the status, 4xx and 5xx included, the decoded
    JSON body is returned as the result, after one request. *)
Theorem plain_calls_ignore_status :
  forall (c : plain_call) (status : Z) (body : pyval) (lines : list string),
    exists req,
      run (perform c) (fun _ => Ok (mkResponse status (Some body) lines))
      = (Ok body, [req]).
Proof.
  intros c status body lines. destruct (perform_run c) as (req & _ & _ & Hrun).
  exists req. rewrite Hrun. reflexivity.
Qed.

(** X2: a call that validates nothing makes one attempt: an exception
    of the transport comes back unchanged and a body that is not JSON
    raises [JSONDecodeError], in both cases with exactly one request
    sent. *)
Theorem plain_calls_propagate_failure :
  forall (c : plain_call),
    (forall e : exn,
       exists req, run (perform c) (fun _ => Raise e) = (Raise e, [req]))
    /\ (forall (status : Z) (lines : list string),
          exists req,
            run (perform c) (fun _ => Ok (mkResponse status None lines))
            = (Raise JSONDecodeError, [req])).
Proof.
  intros c. destruct (perform_run c) as (req & _ & _ & Hrun).
  split; intros; exists req; rewrite Hrun; reflexivity.
Qed.

(** X3: the two Stable Diffusion task calls post the record that
    [create_config] builds from the same arguments, so the defaults of
    the calls are those of the builder; the two differ in the endpoint
    alone. *)
Theorem sd_tasks_post_config :
  forall (self : ImageGeneration.t) (prompt : pyval)
    (rotation steps negative_prompt enhance_prompt : option pyval) headers tr,
    let body :=
      VDict [ ("prompt", prompt);
              ("config",
               VDict (ImageGeneration.create_config rotation steps
                        negative_prompt enhance_prompt)) ] in
    let req path :=
      mkRequest POST (ImageGeneration.base_url self +:+ path) (arg [] headers)
        None (Some body) false in
    run (ImageGeneration.create_sd_task self prompt rotation steps
           negative_prompt enhance_prompt headers) tr
    = (answer tr (req "/ai/create_sd_task"), [req "/ai/create_sd_task"])
    /\ run (ImageGeneration.create_sdxl_task self prompt rotation steps
              negative_prompt enhance_prompt headers) tr
       = (answer tr (req "/ai/create_sdxl_task"), [req "/ai/create_sdxl_task"]).
Proof.
  intros self prompt rotation steps negative_prompt enhance_prompt headers tr
    body req.
  split; apply run_post.
Qed.

(** ** The multipart form of the trainer *)

Lemma uploaded_images_files (images : list string) rest :
  uploaded_images
    (map (fun image => ("files", ImageGeneration.FileContent image)) images
     ++ rest)%list
  = (images ++ uploaded_images rest)%list.
Proof.
  unfold uploaded_images. induction images as [|image images IH]; [done|].
  cbn [map app omap list_omap]. rewrite bool_decide_eq_true_2 by done.
  cbn. f_equal. exact IH.
Qed.

(** X4: [create_lora_trainer_task] posts one multipart form with one
    part per image, each under the name [files] and in the order of the
    list, followed by a single field [prompt] that carries the prompt
    with no file name; the images can be read back from the form, and
    with no image the form is the prompt field alone. *)
Theorem trainer_upload_parts :
  forall (self : ImageGeneration.t) (prompt : pyval) (images : list string)
    headers post,
    exists req,
      (ImageGeneration.create_lora_trainer_task self prompt images headers
         post).2 = [req]
      /\ ImageGeneration.up_url req
         = ImageGeneration.base_url self +:+ "/ai/create_lora_trainner_task"
      /\ ImageGeneration.up_headers req = arg [] headers
      /\ length (ImageGeneration.up_files req) = S (length images)
      /\ (ImageGeneration.up_files req).*1
         = (replicate (length images) "files" ++ ["prompt"])%list
      /\ uploaded_images (ImageGeneration.up_files req) = images
      /\ last (ImageGeneration.up_files req)
         = Some ("prompt", ImageGeneration.FileTuple VNone prompt)
      /\ (images = [] ->
          ImageGeneration.up_files req
          = [("prompt", ImageGeneration.FileTuple VNone prompt)]).
Proof.
  intros self prompt images headers post.
  eexists. split.
  { unfold ImageGeneration.create_lora_trainer_task. cbv zeta.
    destruct (post _) as [r|e]; [destruct (json_body r)|]; reflexivity. }
  cbn [ImageGeneration.up_url ImageGeneration.up_headers
       ImageGeneration.up_files].
  unfold ImageGeneration.trainer_parts. cbv zeta.
  split; [reflexivity|]. split; [reflexivity|].
  split. { rewrite length_app, length_map. simpl. lia. }
  split. { rewrite fmap_app. f_equal.
           induction images as [|i images IH]; [done|]. cbn. by f_equal. }
  split. { rewrite uploaded_images_files. cbn. apply app_nil_r. }
  split. { apply last_snoc. }
  intros ->. reflexivity.
Qed.

(** A form with no image. *)
Lemma trainer_upload_parts_witness :
  exists req,
    (ImageGeneration.create_lora_trainer_task image_client (VStr "a red fox")
       [] None (fun _ => Ok (mkResponse 200 (Some VNone) []))).2 = [req]
    /\ ImageGeneration.up_files req
       = [("prompt", ImageGeneration.FileTuple VNone (VStr "a red fox"))].
Proof.
  destruct (trainer_upload_parts image_client (VStr "a red fox") [] None
              (fun _ => Ok (mkResponse 200 (Some VNone) [])))
    as (req & Hsent & _ & _ & _ & _ & _ & _ & Hempty).
  exists req. split; [exact Hsent | exact (Hempty eq_refl)].
Defined.

(** ** Validation of the message list *)

(** X5: for a list of Message records, the empty list among them,
    [text_generation] posts the list as it is under [messages] together
    with five configs; the argument [max_tokens] travels under the key
    [max_new_tokens], and no key [max_tokens] is sent. *)
Theorem text_generation_payload :
  forall (self : TextGeneration.t) (messages : pyval)
    (model temperature top_k top_p max_tokens : option pyval) headers tr,
    is_message_list messages = true ->
    exists req configs,
      run (TextGeneration.text_generation self messages model temperature
             top_k top_p max_tokens headers) tr = (answer tr req, [req])
      /\ req_method req = POST
      /\ req_url req = TextGeneration.base_url self +:+ "/ai/text_completion"
      /\ req_json req
         = Some (VDict [("messages", messages); ("configs", VDict configs)])
      /\ Dict.keys configs
         = ["model"; "temperature"; "top_k"; "top_p"; "max_new_tokens"]
      /\ Dict.get "model" configs = Some (arg (VStr "gemma-7b") model)
      /\ Dict.get "temperature" configs
         = Some (arg (VFloat 7 (-1)) temperature)
      /\ Dict.get "top_k" configs = Some (arg (VInt 50) top_k)
      /\ Dict.get "top_p" configs = Some (arg (VFloat 95 (-2)) top_p)
      /\ Dict.get "max_new_tokens" configs = Some (arg (VInt 256) max_tokens)
      /\ Dict.get "max_tokens" configs = None.
Proof.
  intros self messages model temperature top_k top_p max_tokens headers tr
    Hvalid.
  rewrite text_generation_run, (check_messages_valid _ Hvalid). cbv zeta.
  eexists _, _. split; [reflexivity|].
  repeat split; reflexivity.
Qed.

(** The empty conversation. *)
Lemma text_generation_payload_witness :
  exists req configs,
    run (TextGeneration.text_generation text_client (VList []) None None None
           None (Some (VInt 64)) None) transport_ok
    = (answer transport_ok req, [req])
    /\ req_method req = POST
    /\ req_url req = "https://api.example" +:+ "/ai/text_completion"
    /\ req_json req
       = Some (VDict [("messages", VList []); ("configs", VDict configs)])
    /\ Dict.keys configs
       = ["model"; "temperature"; "top_k"; "top_p"; "max_new_tokens"]
    /\ Dict.get "model" configs = Some (VStr "gemma-7b")
    /\ Dict.get "temperature" configs = Some (VFloat 7 (-1))
    /\ Dict.get "top_k" configs = Some (VInt 50)
    /\ Dict.get "top_p" configs = Some (VFloat 95 (-2))
    /\ Dict.get "max_new_tokens" configs = Some (VInt 64)
    /\ Dict.get "max_tokens" configs = None.
Proof.
  apply (text_generation_payload text_client (VList []) None None None None
           (Some (VInt 64)) None transport_ok).
  reflexivity.
Defined.

Lemma check_message_valid (m : pyval) :
  is_message m = true -> TextGeneration.check_message m = Ok tt.
Proof.
  intros Hm. destruct m; try discriminate.
  pose proof (check_message_record kvs) as Hrec. by rewrite Hm in Hrec.
Qed.

(** The loop over the messages stops at the first element that is not
    a Message and never looks at what follows it. *)
Lemma check_each_first_offender (pre rest : list pyval) (m : pyval) :
  forallb is_message pre = true ->
  is_message m = false ->
  TextGeneration.check_each (pre ++ m :: rest) = TextGeneration.check_message m
  /\ TextGeneration.check_message m <> Ok tt.
Proof.
  intros Hpre Hm. split.
  - induction pre as [|p pre IH]; cbn [app TextGeneration.check_each].
    + destruct (TextGeneration.check_message m) as [[]|e] eqn:Hc; [|done].
      exfalso. destruct m; try discriminate.
      pose proof (check_message_record kvs) as Hrec. rewrite Hm in Hrec.
      destruct Hrec as [msg Hrec]. congruence.
    + cbn [forallb] in Hpre. apply andb_prop in Hpre as [Hp Hpre].
      rewrite (check_message_valid p Hp). by apply IH.
  - destruct m; try discriminate.
    pose proof (check_message_record kvs) as Hrec. rewrite Hm in Hrec.
    destruct Hrec as [msg ->]. discriminate.
Qed.

(** X6: the first element of the list that is not a Message decides
    the outcome of [text_generation], whatever comes after it: a record
    gives [ValueError], anything that is not a record gives
    [AttributeError]; in both cases nothing is sent. *)
Theorem first_offender_decides :
  forall (self : TextGeneration.t) (pre rest : list pyval) (m : pyval)
    (model temperature top_k top_p max_tokens : option pyval) headers tr,
    let call :=
      TextGeneration.text_generation self (VList (pre ++ m :: rest)) model
        temperature top_k top_p max_tokens headers in
    forallb is_message pre = true ->
    is_message m = false ->
    (is_record m = true -> fails_validation call tr)
    /\ (is_record m = false -> run call tr = (Raise (AttributeError "keys"), [])).
Proof.
  intros self pre rest m model temperature top_k top_p max_tokens headers tr
    call Hpre Hm.
  destruct (check_each_first_offender pre rest m Hpre Hm) as [Heach _].
  subst call. unfold fails_validation. rewrite text_generation_run.
  cbn [TextGeneration.check_messages]. rewrite Heach.
  split; intros Hrec.
  - destruct m; try discriminate.
    pose proof (check_message_record kvs) as Hmsg. rewrite Hm in Hmsg.
    destruct Hmsg as [msg ->]. eauto.
  - destruct m; try discriminate; reflexivity.
Qed.

(** A number in second place, followed by a record with a bad role. *)
Lemma first_offender_decides_witness :
  run (TextGeneration.text_generation text_client
         (VList [ VDict [("role", VStr "user"); ("content", VStr "Hello")];
                  VInt 5;
                  VDict [("role", VStr "tool"); ("content", VStr "42")] ])
         None None None None None None) transport_ok
  = (Raise (AttributeError "keys"), []).
Proof.
  apply (proj2 (first_offender_decides text_client
                  [VDict [("role", VStr "user"); ("content", VStr "Hello")]]
                  [VDict [("role", VStr "tool"); ("content", VStr "42")]]
                  (VInt 5) None None None None None None transport_ok
                  ltac:(vm_compute; reflexivity) eq_refl)).
  reflexivity.
Defined.

(** X7: the three messages of the validation.  An argument that is not
    a list is rejected with the text on lists; a record whose key-set
    is not {role, content} with the text on keys, whatever its role;
    a record with the right keys and a role outside the three with the
    text on roles. *)
Theorem validation_messages :
  forall (self : TextGeneration.t)
    (model temperature top_k top_p max_tokens : option pyval) headers tr,
    let call messages :=
      TextGeneration.text_generation self messages model temperature top_k
        top_p max_tokens headers in
    (forall messages,
       (forall ms, messages <> VList ms) ->
       run (call messages) tr
       = (Raise (ValueError TextGeneration.msg_not_list), []))
    /\ (forall pre kvs rest,
          forallb is_message pre = true ->
          list_to_set (Dict.keys kvs) <> ({[ "role"; "content" ]} : gset string) ->
          run (call (VList (pre ++ VDict kvs :: rest))) tr
          = (Raise (ValueError TextGeneration.msg_bad_keys), []))
    /\ (forall pre kvs rest,
          forallb is_message pre = true ->
          list_to_set (Dict.keys kvs) = ({[ "role"; "content" ]} : gset string) ->
          is_message (VDict kvs) = false ->
          run (call (VList (pre ++ VDict kvs :: rest))) tr
          = (Raise (ValueError TextGeneration.msg_bad_role), [])).
Proof.
  intros self model temperature top_k top_p max_tokens headers tr call.
  subst call. cbv beta. split; [|split].
  - intros messages Hnot. rewrite text_generation_run.
    destruct messages; try reflexivity. by destruct (Hnot xs).
  - intros pre kvs rest Hpre Hkeys. rewrite text_generation_run.
    assert (Hm : is_message (VDict kvs) = false).
    { unfold is_message. by rewrite bool_decide_eq_false_2. }
    destruct (check_each_first_offender pre rest _ Hpre Hm) as [Heach _].
    cbn [TextGeneration.check_messages]. rewrite Heach.
    unfold TextGeneration.check_message. cbv zeta.
    rewrite role_content_set. by rewrite bool_decide_eq_true_2.
  - intros pre kvs rest Hpre Hkeys Hm. rewrite text_generation_run.
    destruct (check_each_first_offender pre rest _ Hpre Hm) as [Heach _].
    cbn [TextGeneration.check_messages]. rewrite Heach.
    unfold is_message in Hm. rewrite bool_decide_eq_true_2 in Hm by done.
    cbn [andb] in Hm.
    unfold TextGeneration.check_message. cbv zeta.
    rewrite role_content_set.
    rewrite bool_decide_eq_false_2 by (by intros []).
    destruct (Dict.get "role" kvs) as [role|] eqn:Hrole.
    + destruct role as [| | | |r| |].
      5: { rewrite py_in_strs_str, Hm. reflexivity. }
      all: rewrite py_in_strs_other by done; reflexivity.
    + apply get_None_not_in in Hrole. exfalso. apply Hrole.
      apply (elem_of_list_to_set (C := gset string)). rewrite Hkeys.
      set_solver.
Qed.

(** A string in place of the list, a record with a third key and a bad
    role, and a record with a bad role alone. *)
Lemma validation_messages_witness :
  run (TextGeneration.text_generation text_client (VStr "Hello") None None
         None None None None) transport_ok
  = (Raise (ValueError TextGeneration.msg_not_list), [])
  /\ run (TextGeneration.text_generation text_client
            (VList [ VDict [ ("role", VStr "tool"); ("content", VStr "42");
                             ("name", VStr "calc") ] ])
            None None None None None None) transport_ok
     = (Raise (ValueError TextGeneration.msg_bad_keys), [])
  /\ run (TextGeneration.text_generation text_client
            (VList [ VDict [("role", VStr "tool"); ("content", VStr "42")] ])
            None None None None None None) transport_ok
     = (Raise (ValueError TextGeneration.msg_bad_role), []).
Proof.
  pose proof (validation_messages text_client None None None None None None
                transport_ok) as (Hlist & Hkeys & Hrole).
  split; [|split].
  - apply Hlist. discriminate.
  - apply (Hkeys [] _ [] eq_refl).
    intros Heq.
    assert (Hin : "name" ∈ ({[ "role"; "content" ]} : gset string)).
    { rewrite <- Heq. apply elem_of_list_to_set.
      apply (bool_decide_unpack _). vm_compute. exact I. }
    set_solver.
  - apply (Hrole [] _ [] eq_refl).
    + vm_compute. reflexivity.
    + vm_compute. reflexivity.
Defined.

(** ** The life of a stream generator *)

Lemma resume_lines_cases (pending : list string) :
  TextGeneration.resume_lines pending
  = (TextGeneration.StopIteration, TextGeneration.GenFinished)
  \/ exists line rest,
       TextGeneration.resume_lines pending
       = (TextGeneration.Yield line, TextGeneration.GenSuspended rest).
Proof.
  induction pending as [|line rest IH]; [by left|].
  cbn [TextGeneration.resume_lines].
  destruct (bool_decide (line <> "")); [right; eauto | exact IH].
Qed.

Lemma consume_finished (fuel : nat) tr log :
  (0 < fuel)%nat ->
  TextGeneration.consume fuel TextGeneration.GenFinished tr log
  = ([], Some TextGeneration.StopIteration, log).
Proof. destruct fuel; [lia | reflexivity]. Qed.

Lemma consume_suspended_log (fuel : nat) :
  forall pending tr log,
    (TextGeneration.consume fuel (TextGeneration.GenSuspended pending) tr log).2
    = log.
Proof.
  induction fuel as [|fuel IH]; intros pending tr log; [reflexivity|].
  cbn [TextGeneration.consume TextGeneration.next].
  destruct (resume_lines_cases pending) as [-> | (line & rest & ->)];
    [reflexivity|].
  specialize (IH rest tr log).
  destruct (TextGeneration.consume fuel _ tr log) as [[lines ending] log''].
  exact IH.
Qed.

Lemma consume_suspended_prefix (pending : list string) :
  forall (fuel : nat) tr log,
    (fuel <= length (non_empty_lines pending))%nat ->
    TextGeneration.consume fuel (TextGeneration.GenSuspended pending) tr log
    = (take fuel (non_empty_lines pending), None, log).
Proof.
  unfold non_empty_lines.
  induction pending as [|line rest IH]; intros fuel tr log Hfuel.
  - destruct fuel; [reflexivity | simpl in Hfuel; lia].
  - destruct fuel as [|fuel]; [reflexivity|].
    destruct (decide (line = "")) as [->|Hline].
    + rewrite (consume_next_eq fuel _ (TextGeneration.GenSuspended rest) tr
                 log log) by reflexivity.
      rewrite filter_cons_False in * by (by intros []). by apply IH.
    + rewrite filter_cons_True in * by done.
      cbn [TextGeneration.consume TextGeneration.next
           TextGeneration.resume_lines].
      rewrite bool_decide_eq_true_2 by done.
      rewrite IH by (simpl in Hfuel; lia). reflexivity.
Qed.

(** X8: the stream is lazy.  For valid messages and an answer whose
    status is no error, a consumer that resumes the generator [n] times
    and then walks away, [n] at least one and at most the number of
    non-empty lines, has received the first [n] non-empty lines of the
    body, in order; the loop has not ended and one request has been
    sent. *)
Theorem stream_prefix :
  forall (self : TextGeneration.t) (messages : pyval)
    (model temperature top_k top_p max_tokens : option pyval) headers tr
    (response : response) (n : nat),
    let gen :=
      TextGeneration.generate_text_stream self messages model temperature
        top_k top_p max_tokens headers in
    let req :=
      stream_request self messages (arg (VStr "gemma-7b") model)
        (arg (VFloat 7 (-1)) temperature) (arg (VInt 50) top_k)
        (arg (VFloat 95 (-2)) top_p) (arg (VInt 256) max_tokens)
        (arg [] headers) in
    is_message_list messages = true ->
    tr req = Ok response ->
    ~ 400 <= status_code response < 600 ->
    (0 < n <= length (non_empty_lines (iter_lines response)))%nat ->
    TextGeneration.consume n gen tr []
    = (take n (non_empty_lines (iter_lines response)), None, [req]).
Proof.
  intros self messages model temperature top_k top_p max_tokens headers tr
    response n gen req Hvalid Htr Hst [Hpos Hn].
  pose proof (next_created_answered self messages _ _ _ _ _ _ tr response
                (check_messages_valid _ Hvalid) Htr) as Hnext.
  cbv zeta in Hnext. fold req in Hnext.
  destruct n as [|n]; [lia|].
  subst gen. unfold TextGeneration.generate_text_stream.
  rewrite (consume_next_eq n _
             (TextGeneration.GenSuspended (iter_lines response)) tr [] [req]).
  - by apply consume_suspended_prefix.
  - rewrite Hnext. unfold raise_for_status.
    by rewrite bool_decide_eq_false_2.
Qed.

(** One resumption against the server that answers 200 with three
    lines, the second one empty. *)
Lemma stream_prefix_witness :
  TextGeneration.consume 1
    (TextGeneration.generate_text_stream text_client sample_messages None None
       None None None None) (transport_lines 200) []
  = (["data: Hel"], None,
     [stream_request text_client sample_messages (VStr "gemma-7b")
        (VFloat 7 (-1)) (VInt 50) (VFloat 95 (-2)) (VInt 256) []]).
Proof.
  apply (stream_prefix text_client sample_messages None None None None None
           None (transport_lines 200)
           (mkResponse 200 None ["data: Hel"; ""; "data: lo"]) 1 eq_refl
           eq_refl).
  - simpl. lia.
  - vm_compute. lia.
Defined.

(** X9: a generator cannot be restarted.  Once a resumption has given
    anything but a line (the end of the stream or an exception) the
    generator is finished: every later resumption gives
    [StopIteration] and sends nothing. *)
Theorem stream_finished_stays_finished :
  forall (g g' : TextGeneration.generator) tr log log'
    (ev : TextGeneration.gen_event),
    TextGeneration.next g tr log = (ev, g', log') ->
    (forall line, ev <> TextGeneration.Yield line) ->
    g' = TextGeneration.GenFinished
    /\ forall tr' log'',
         TextGeneration.next g' tr' log''
         = (TextGeneration.StopIteration, TextGeneration.GenFinished, log'').
Proof.
  intros g g' tr log log' ev Hnext Hev.
  assert (Hg : g' = TextGeneration.GenFinished); [|by subst g'].
  assert (Hres : forall pending l,
             (let (ev0, g0) := TextGeneration.resume_lines pending in
              (ev0, g0, l)) = (ev, g', log') ->
             g' = TextGeneration.GenFinished).
  { intros pending l.
    destruct (resume_lines_cases pending) as [-> | (line & rest & ->)];
      intros [= <- <- <-]; [done | by destruct (Hev line)]. }
  destruct g as [self messages model temperature top_k top_p max_tokens headers
                |pending|]; cbn [TextGeneration.next] in Hnext.
  - destruct (TextGeneration.check_messages messages); [|congruence].
    cbv zeta in Hnext.
    destruct (requests_post_stream _ _ _ tr log) as [[r|e] l]; [|congruence].
    destruct (raise_for_status r); [|congruence].
    by apply (Hres (iter_lines r) l).
  - by apply (Hres pending log).
  - congruence.
Qed.

(** The generator of a call with a string in place of the list, after
    its first resumption. *)
Lemma stream_finished_stays_finished_witness :
  TextGeneration.next TextGeneration.GenFinished (transport_lines 200) []
  = (TextGeneration.StopIteration, TextGeneration.GenFinished, []).
Proof.
  apply (proj2 (stream_finished_stays_finished
                  (TextGeneration.generate_text_stream text_client
                     (VStr "Hello") None None None None None None)
                  TextGeneration.GenFinished transport_ok [] []
                  (TextGeneration.GenRaise
                     (ValueError TextGeneration.msg_not_list))
                  eq_refl ltac:(discriminate))).
Defined.

(** X10: over its whole life a generator sends at most one request,
    the streaming POST with the caller's headers, however often it is
    resumed; a generator that has started sends none. *)
Theorem stream_single_request :
  forall (fuel : nat) (self : TextGeneration.t) (messages : pyval)
    (model temperature top_k top_p max_tokens : option pyval) headers tr,
    let gen :=
      TextGeneration.generate_text_stream self messages model temperature
        top_k top_p max_tokens headers in
    let req :=
      stream_request self messages (arg (VStr "gemma-7b") model)
        (arg (VFloat 7 (-1)) temperature) (arg (VInt 50) top_k)
        (arg (VFloat 95 (-2)) top_p) (arg (VInt 256) max_tokens)
        (arg [] headers) in
    ((TextGeneration.consume fuel gen tr []).2 = []
     \/ (TextGeneration.consume fuel gen tr []).2 = [req])
    /\ (forall pending log,
          (TextGeneration.consume fuel (TextGeneration.GenSuspended pending)
             tr log).2 = log)
    /\ (TextGeneration.consume fuel TextGeneration.GenFinished tr []).2 = [].
Proof.
  intros fuel self messages model temperature top_k top_p max_tokens headers
    tr gen req.
  split; [|split; [intros; apply consume_suspended_log | by destruct fuel]].
  destruct fuel as [|fuel]; [by left|].
  subst gen. unfold TextGeneration.generate_text_stream.
  cbn [TextGeneration.consume TextGeneration.next].
  destruct (TextGeneration.check_messages messages); [|by left].
  right. unfold requests_post_stream, send. cbv beta zeta. cbn [app].
  fold (TextGeneration.completion_configs).
  change (mkRequest POST _ _ None _ true) with req.
  destruct (tr req) as [r|e]; [|reflexivity].
  destruct (raise_for_status r); [|reflexivity].
  destruct (resume_lines_cases (iter_lines r)) as [-> | (line & rest & ->)];
    [reflexivity|].
  pose proof (consume_suspended_log fuel rest tr [req]) as Hlog.
  destruct (TextGeneration.consume fuel _ tr [req]) as [[lines ending] log''].
  exact Hlog.
Qed.

(** X11: when the transport raises on the streaming POST, the first
    resumption of the generator raises the same exception: no line is
    yielded, the request is not repeated. *)
Theorem stream_transport_failure :
  forall (self : TextGeneration.t) (messages : pyval)
    (model temperature top_k top_p max_tokens : option pyval) headers tr
    (e : exn) (fuel : nat),
    let gen :=
      TextGeneration.generate_text_stream self messages model temperature
        top_k top_p max_tokens headers in
    let req :=
      stream_request self messages (arg (VStr "gemma-7b") model)
        (arg (VFloat 7 (-1)) temperature) (arg (VInt 50) top_k)
        (arg (VFloat 95 (-2)) top_p) (arg (VInt 256) max_tokens)
        (arg [] headers) in
    is_message_list messages = true ->
    tr req = Raise e ->
    (0 < fuel)%nat ->
    TextGeneration.consume fuel gen tr []
    = ([], Some (TextGeneration.GenRaise e), [req]).
Proof.
  intros self messages model temperature top_k top_p max_tokens headers tr e
    fuel gen req Hvalid Htr Hfuel.
  destruct fuel as [|fuel]; [lia|].
  subst gen. unfold TextGeneration.generate_text_stream.
  cbn [TextGeneration.consume TextGeneration.next].
  rewrite (check_messages_valid _ Hvalid).
  unfold requests_post_stream, send. cbv beta zeta. cbn [app].
  change (mkRequest POST _ _ None _ true) with req.
  by rewrite Htr.
Qed.

(** The sample conversation with no server to talk to. *)
Lemma stream_transport_failure_witness :
  TextGeneration.consume 3
    (TextGeneration.generate_text_stream text_client sample_messages None None
       None None None None) (fun _ => Raise ConnectionError) []
  = ([], Some (TextGeneration.GenRaise ConnectionError),
     [stream_request text_client sample_messages (VStr "gemma-7b")
        (VFloat 7 (-1)) (VInt 50) (VFloat 95 (-2)) (VInt 256) []]).
Proof.
  apply (stream_transport_failure text_client sample_messages None None None
           None None None (fun _ => Raise ConnectionError) ConnectionError 3
           eq_refl eq_refl).
  lia.
Defined.

(** ** Requests and local failures *)

(** X12: a call that validates nothing sends exactly one request,
    never a streaming one, and the request carries the caller's headers
    as they are, or no header when none was passed; this holds whatever
    the transport answers. *)
Theorem plain_calls_carry_headers :
  forall (c : plain_call) tr,
    exists req,
      sent (perform c) tr = [req]
      /\ req_headers req = arg [] (call_headers c)
      /\ req_stream req = false.
Proof.
  intros c tr. destruct (perform_run c) as (req & Hh & Hs & Hrun).
  exists req. unfold sent. by rewrite Hrun.
Qed.

(** X13: the three calls that validate either fail before anything is
    sent, or send exactly one request, with the caller's headers, and
    return what comes back for it: no request follows a local failure
    and no local check follows the request. *)
Theorem validating_calls_fail_or_send :
  forall tr headers,
    let fail_or_send (call : M pyval) :=
      (exists e, run call tr = (Raise e, []))
      \/ (exists req,
            req_headers req = arg [] headers
            /\ run call tr = (answer tr req, [req])) in
    (forall (self : AudioGeneration.t) prompt model kwargs,
       fail_or_send
         (AudioGeneration.create_txt2audio self prompt model headers kwargs))
    /\ (forall (self : TextGeneration.t) messages model temperature top_k top_p
          max_tokens,
          fail_or_send
            (TextGeneration.text_generation self messages model temperature
               top_k top_p max_tokens headers))
    /\ (forall (self : FlexstackInfo.t) task,
          fail_or_send (FlexstackInfo.get_models self task headers)).
Proof.
  intros tr headers fail_or_send. subst fail_or_send. cbv beta.
  split; [|split].
  - intros self prompt model kwargs.
    destruct (AudioGeneration.check_kwargs (arg "musicgen" model) kwargs)
      as [[]|e] eqn:Hchk.
    + right. eexists. split; [|by apply create_txt2audio_posts]. reflexivity.
    + left. exists e. unfold AudioGeneration.create_txt2audio. cbv zeta.
      by apply run_lift_raise.
  - intros self messages model temperature top_k top_p max_tokens.
    rewrite text_generation_run.
    destruct (TextGeneration.check_messages messages) as [[]|e].
    + right. eexists. split; [|reflexivity]. reflexivity.
    + left. by exists e.
  - intros self task. rewrite get_models_run.
    destruct (bool_decide (task ∈ FlexstackInfo.valid_tasks)).
    + right. eexists. split; [|reflexivity]. reflexivity.
    + left. eauto.
Qed.

(** ** Keyword arguments of the audio call *)

Lemma check_kwargs_first_rejected model names pre k v rest :
  AudioGeneration.valids_getitem model = Ok names ->
  (forall k', k' ∈ Dict.keys pre -> k' ∈ names) ->
  k ∉ names ->
  AudioGeneration.check_kwargs model (pre ++ (k, v) :: rest)
  = Raise (ValueError (AudioGeneration.unsupported_msg model k names)).
Proof.
  intros Hv Hpre Hk. induction pre as [|[k0 v0] pre IH];
    cbn [app AudioGeneration.check_kwargs]; rewrite Hv.
  - by rewrite bool_decide_eq_false_2.
  - rewrite bool_decide_eq_true_2 by (apply Hpre; rewrite keys_cons; left).
    cbn [negb]. apply IH. intros k' Hk'. apply Hpre. rewrite keys_cons.
    by right.
Qed.

(** X14: the keywords are checked in the order of the call and the
    check stops at the first one outside the allow-list: the message of
    the [ValueError] names the model and that keyword, then lists the
    accepted names followed by prompt and model; the keywords after it
    are not looked at. *)
Theorem audio_first_rejected_keyword :
  forall (self : AudioGeneration.t) prompt (model : option string) headers
    (pre rest : pydict) (k : string) (v : pyval) tr,
    let m := arg "musicgen" model in
    m ∈ audio_models ->
    (forall k', k' ∈ Dict.keys pre -> k' ∈ allow_list m) ->
    k ∉ allow_list m ->
    run (AudioGeneration.create_txt2audio self prompt model headers
           (pre ++ (k, v) :: rest)) tr
    = (Raise (ValueError
                ("Model `" +:+ m +:+ "` does not support keyword argument: `"
                 +:+ k +:+ "`. Only suport in ["
                 +:+ join ", " (allow_list m ++ ["prompt"; "model"])%list
                 +:+ "]")), []).
Proof.
  intros self prompt model headers pre rest k v tr m Hm Hpre Hk.
  unfold AudioGeneration.create_txt2audio. cbv zeta.
  apply run_lift_raise. fold m.
  by apply check_kwargs_first_rejected; [apply valids_getitem_known| |].
Qed.

(** Two unknown keywords after a known one: the first of the two is
    reported. *)
Lemma audio_first_rejected_keyword_witness :
  run (AudioGeneration.create_txt2audio audio_client (VStr "birdsong")
         (Some "musicgen") None
         [("top_k", VInt 3); ("volume", VInt 11); ("pitch", VInt 2)])
    transport_ok
  = (Raise (ValueError
              "Model `musicgen` does not support keyword argument: `volume`. Only suport in [duration, top_k, top_p, prompt, model]"),
     []).
Proof.
  apply (audio_first_rejected_keyword audio_client (VStr "birdsong")
           (Some "musicgen") None [("top_k", VInt 3)] [("pitch", VInt 2)]
           "volume" (VInt 11) transport_ok).
  - apply (bool_decide_unpack _). vm_compute. exact I.
  - intros k' Hk'. apply (bool_decide_unpack _).
    revert Hk'. rewrite keys_cons, keys_nil, list_elem_of_singleton.
    intros ->. vm_compute. exact I.
  - apply (bool_decide_unpack _). vm_compute. exact I.
Defined.

(** X15: the model bark takes no keyword at all: the call raises
    [ValueError] before anything is sent if and only if some keyword
    argument is passed; with none, the configs posted hold the model
    alone, no default being added. *)
Theorem bark_accepts_no_kwargs :
  forall (self : AudioGeneration.t) prompt headers (kwargs : pydict) tr,
    let call :=
      AudioGeneration.create_txt2audio self prompt (Some "bark") headers kwargs
    in
    let req :=
      mkRequest POST (AudioGeneration.base_url self +:+ "/ai/audio_generation")
        (arg [] headers) None
        (Some (VDict [ ("prompt", prompt);
                       ("configs", VDict [("model", VStr "bark")]) ]))
        false in
    (fails_validation call tr <-> kwargs <> [])
    /\ (kwargs = [] -> run call tr = (answer tr req, [req])).
Proof.
  intros self prompt headers kwargs tr call req.
  destruct kwargs as [|[k v] rest].
  - assert (Hrun : run call tr = (answer tr req, [req])).
    { subst call req.
      by rewrite (create_txt2audio_posts self prompt (Some "bark") headers []
                    tr). }
    split; [|done]. unfold fails_validation. rewrite Hrun.
    split; [intros [msg [=]] | done].
  - split; [|done]. split; [done|]. intros _. eexists. reflexivity.
Qed.

(** The bare call, and a call with one keyword. *)
Lemma bark_accepts_no_kwargs_witness :
  fails_validation
    (AudioGeneration.create_txt2audio audio_client (VStr "a dog barks")
       (Some "bark") None [("top_p", VFloat 5 (-1))]) transport_ok
  /\ sent (AudioGeneration.create_txt2audio audio_client (VStr "a dog barks")
             (Some "bark") None []) transport_ok
     = [ mkRequest POST "https://api.example/ai/audio_generation" [] None
           (Some (VDict [ ("prompt", VStr "a dog barks");
                          ("configs", VDict [("model", VStr "bark")]) ]))
           false ].
Proof.
  split.
  - apply (proj1 (bark_accepts_no_kwargs audio_client (VStr "a dog barks")
                    None [("top_p", VFloat 5 (-1))] transport_ok)).
    discriminate.
  - unfold sent.
    rewrite (proj2 (bark_accepts_no_kwargs audio_client (VStr "a dog barks")
                      None [] transport_ok) eq_refl).
    reflexivity.
Defined.

(** ** The order of the configs *)

Lemma keys_app (d e : pydict) :
  Dict.keys (d ++ e) = (Dict.keys d ++ Dict.keys e)%list.
Proof. unfold Dict.keys. apply fmap_app. Qed.

Lemma set_absent k v (d : pydict) :
  k ∉ Dict.keys d -> Dict.set k v d = (d ++ [(k, v)])%list.
Proof.
  induction d as [|[k0 v0] d IH]; [done|].
  rewrite keys_cons, not_elem_of_cons. intros [Hne Hd].
  cbn [Dict.set app]. rewrite bool_decide_eq_false_2 by congruence.
  by rewrite IH.
Qed.

Lemma set_same k v (d : pydict) :
  Dict.get k d = Some v -> Dict.set k v d = d.
Proof.
  induction d as [|[k0 v0] d IH]; [done|]. cbn [Dict.get Dict.set].
  destruct (decide (k0 = k)) as [->|Hne].
  - rewrite !bool_decide_eq_true_2 by done. by intros [= ->].
  - rewrite !bool_decide_eq_false_2 by done. intros Hd. by rewrite IH.
Qed.

Lemma update_disjoint (o : pydict) :
  forall d : pydict,
    NoDup (Dict.keys o) ->
    (forall k, k ∈ Dict.keys o -> k ∉ Dict.keys d) ->
    Dict.update d o = (d ++ o)%list.
Proof.
  unfold Dict.update.
  induction o as [|[k v] o IH]; intros d Hnd Hdisj; cbn [fold_left].
  - by rewrite app_nil_r.
  - rewrite keys_cons in Hnd, Hdisj. apply NoDup_cons in Hnd as [Hk Hnd].
    cbn [fst snd]. rewrite set_absent by (apply Hdisj; left).
    rewrite IH; [by rewrite <- app_assoc | done |].
    intros k' Hk'. rewrite keys_app, keys_cons, keys_nil, elem_of_app.
    rewrite list_elem_of_singleton. intros [Hd | ->]; [|done].
    by apply (Hdisj k'); [right|].
Qed.

(** A keyword the caller passed keeps its place and its value; one the
    caller left out is appended with the default. *)
Lemma backfill_app k dflt (kwargs : pydict) :
  AudioGeneration.backfill k dflt kwargs
  = (kwargs ++ if bool_decide (k ∈ Dict.keys kwargs) then [] else [(k, dflt)])%list.
Proof.
  unfold AudioGeneration.backfill.
  destruct (Dict.get k kwargs) as [v|] eqn:Hget.
  - rewrite bool_decide_eq_true_2.
    + rewrite app_nil_r. by apply set_same.
    + destruct (decide (k ∈ Dict.keys kwargs)) as [|Hn]; [done|].
      apply get_None_not_in in Hn. congruence.
  - apply get_None_not_in in Hget.
    rewrite bool_decide_eq_false_2 by done. by apply set_absent.
Qed.

Lemma bool_decide_keys_app k (d e : pydict) :
  k ∉ Dict.keys e ->
  bool_decide (k ∈ Dict.keys (d ++ e)) = bool_decide (k ∈ Dict.keys d).
Proof.
  intros He. apply bool_decide_ext. rewrite keys_app, elem_of_app. tauto.
Qed.

Lemma not_in_keys_optional k k' v (b : bool) :
  k <> k' -> k ∉ Dict.keys (if b then [] else [(k', v)]).
Proof.
  intros Hne. destruct b.
  - apply not_elem_of_nil.
  - rewrite keys_cons, keys_nil. by intros ->%list_elem_of_singleton.
Qed.

Lemma missing_defaults_eq (kwargs : pydict) :
  missing_defaults kwargs
  = ((if bool_decide ("duration" ∈ Dict.keys kwargs) then []
      else [("duration", VInt 5)])
     ++ (if bool_decide ("top_k" ∈ Dict.keys kwargs) then []
         else [("top_k", VInt 15)])
     ++ (if bool_decide ("top_p" ∈ Dict.keys kwargs) then []
         else [("top_p", VFloat 9 (-1))]))%list.
Proof.
  unfold missing_defaults. rewrite !filter_cons, filter_nil. cbn [fst].
  destruct (decide ("duration" ∈ Dict.keys kwargs)) as [Hd|Hd];
    destruct (decide ("top_k" ∈ Dict.keys kwargs)) as [Hk|Hk];
    destruct (decide ("top_p" ∈ Dict.keys kwargs)) as [Hp|Hp];
    rewrite ?(bool_decide_eq_true_2 _ Hd), ?(bool_decide_eq_false_2 _ Hd),
      ?(bool_decide_eq_true_2 _ Hk), ?(bool_decide_eq_false_2 _ Hk),
      ?(bool_decide_eq_true_2 _ Hp), ?(bool_decide_eq_false_2 _ Hp);
    rewrite ?(decide_True _ _ Hd), ?(decide_True _ _ Hk), ?(decide_True _ _ Hp);
    rewrite ?(decide_False (P := "duration" ∉ _)) by (intros Hn; by apply Hn);
    rewrite ?(decide_False (P := "top_k" ∉ _)) by (intros Hn; by apply Hn);
    rewrite ?(decide_False (P := "top_p" ∉ _)) by (intros Hn; by apply Hn);
    reflexivity.
Qed.

Lemma default_kwargs_app (m : string) (kwargs : pydict) :
  m = "audiogen" \/ m = "musicgen" ->
  AudioGeneration.default_kwargs m kwargs
  = (kwargs ++ missing_defaults kwargs)%list.
Proof.
  intros Hm.
  assert (Hdef : AudioGeneration.default_kwargs m kwargs
                 = AudioGeneration.backfill "top_p" (VFloat 9 (-1))
                     (AudioGeneration.backfill "top_k" (VInt 15)
                        (AudioGeneration.backfill "duration" (VInt 5) kwargs))).
  { unfold AudioGeneration.default_kwargs.
    destruct Hm as [-> | ->]; reflexivity. }
  rewrite Hdef, !backfill_app, missing_defaults_eq.
  rewrite (bool_decide_keys_app "top_k") by (by apply not_in_keys_optional).
  rewrite (bool_decide_keys_app "top_p") by (by apply not_in_keys_optional).
  rewrite (bool_decide_keys_app "top_p") by (by apply not_in_keys_optional).
  by rewrite <- !app_assoc.
Qed.

(** X16: for audiogen and musicgen the configs are posted in a fixed
    order: the model first, then the caller's keyword arguments in the
    order and with the values of the call, then the defaults of the
    keywords the caller left out, in the order duration, top_k,
    top_p. *)
Theorem audio_configs_order :
  forall (self : AudioGeneration.t) prompt (model : option string) headers
    (kwargs : pydict) tr,
    let m := arg "musicgen" model in
    m = "audiogen" \/ m = "musicgen" ->
    NoDup (Dict.keys kwargs) ->
    (forall k, k ∈ Dict.keys kwargs -> k ∈ ["duration"; "top_k"; "top_p"]) ->
    exists req,
      run (AudioGeneration.create_txt2audio self prompt model headers kwargs)
        tr = (answer tr req, [req])
      /\ posted_configs req
         = Some (("model", VStr m) :: kwargs ++ missing_defaults kwargs)%list.
Proof.
  intros self prompt model headers kwargs tr m Hm Hnd Hall.
  assert (Hmodels : m ∈ audio_models).
  { unfold audio_models. destruct Hm as [-> | ->]; set_solver. }
  assert (Hallow : allow_list m = ["duration"; "top_k"; "top_p"]).
  { destruct Hm as [-> | ->]; reflexivity. }
  assert (Hok : AudioGeneration.check_kwargs m kwargs = Ok tt).
  { apply (check_kwargs_allowed m (allow_list m));
      [by apply valids_getitem_known | by rewrite Hallow]. }
  pose proof (create_txt2audio_posts self prompt model headers kwargs tr Hok)
    as Hrun.
  cbv zeta in Hrun. fold m in Hrun.
  eexists. split; [exact Hrun|].
  unfold posted_configs. cbn [req_json Dict.get].
  rewrite bool_decide_eq_false_2 by discriminate.
  rewrite bool_decide_eq_true_2 by done.
  f_equal. unfold AudioGeneration.build_configs.
  pose proof (default_kwargs_app m kwargs Hm) as Happ.
  rewrite update_disjoint.
  - by rewrite Happ.
  - assert (Hdef : AudioGeneration.default_kwargs m kwargs
                   = AudioGeneration.backfill "top_p" (VFloat 9 (-1))
                       (AudioGeneration.backfill "top_k" (VInt 15)
                          (AudioGeneration.backfill "duration" (VInt 5) kwargs))).
    { unfold AudioGeneration.default_kwargs.
      destruct Hm as [-> | ->]; reflexivity. }
    rewrite Hdef. by do 3 apply NoDup_keys_backfill.
  - intros k. rewrite Happ, keys_app, elem_of_app, keys_cons, keys_nil.
    rewrite list_elem_of_singleton. intros [Hk | Hk] ->.
    + apply Hall in Hk. revert Hk. rewrite !elem_of_cons, elem_of_nil.
      intros [?|[?|[?|[]]]]; discriminate.
    + unfold missing_defaults, Dict.keys in Hk.
      apply list_elem_of_fmap in Hk as ([k' v'] & Hk' & Hin).
      apply list_elem_of_filter in Hin as [_ Hin]. simpl in Hk'. subst k'.
      revert Hin. rewrite !elem_of_cons, elem_of_nil.
      intros [?|[?|[?|[]]]]; discriminate.
Qed.

(** A call that passes top_p, then duration. *)
Lemma audio_configs_order_witness :
  exists req,
    run (AudioGeneration.create_txt2audio audio_client (VStr "birdsong")
           (Some "audiogen") None
           [("top_p", VFloat 5 (-1)); ("duration", VInt 8)]) transport_ok
    = (answer transport_ok req, [req])
    /\ posted_configs req
       = Some [ ("model", VStr "audiogen"); ("top_p", VFloat 5 (-1));
                ("duration", VInt 8); ("top_k", VInt 15) ].
Proof.
  apply (audio_configs_order audio_client (VStr "birdsong") (Some "audiogen")
           None [("top_p", VFloat 5 (-1)); ("duration", VInt 8)] transport_ok).
  - left. reflexivity.
  - apply (bool_decide_unpack _). vm_compute. exact I.
  - intros k Hk. apply (bool_decide_unpack _).
    revert Hk. rewrite !keys_cons, keys_nil, !elem_of_cons, elem_of_nil.
    intros [-> | [-> | []]]; vm_compute; exact I.
Defined.

(** ** The two completion calls *)

Lemma append_assoc_string (a b c : string) :
  (a +:+ b) +:+ c = a +:+ (b +:+ c).
Proof.
  induction a as [|x a IH]; [reflexivity|].
  change (String x ((a +:+ b) +:+ c) = String x (a +:+ (b +:+ c))).
  by f_equal.
Qed.

(** X17: for valid messages the streaming call and the plain call post
    the same JSON body with the same headers; the streaming request
    goes to the URL of the plain one followed by [?stream=true] and is
    the only one of the two that asks for a streamed answer. *)
Theorem stream_posts_same_body :
  forall (self : TextGeneration.t) (messages : pyval)
    (model temperature top_k top_p max_tokens : option pyval) headers tr,
    is_message_list messages = true ->
    exists plain streamed,
      sent (TextGeneration.text_generation self messages model temperature
              top_k top_p max_tokens headers) tr = [plain]
      /\ (TextGeneration.next
            (TextGeneration.generate_text_stream self messages model
               temperature top_k top_p max_tokens headers) tr []).2
         = [streamed]
      /\ req_method plain = POST /\ req_method streamed = POST
      /\ req_json streamed = req_json plain
      /\ req_headers streamed = req_headers plain
      /\ req_url streamed = req_url plain +:+ "?stream=true"
      /\ req_stream plain = false /\ req_stream streamed = true.
Proof.
  intros self messages model temperature top_k top_p max_tokens headers tr
    Hvalid.
  pose proof (check_messages_valid _ Hvalid) as Hchk.
  eexists _, _. split.
  { unfold sent. rewrite text_generation_run, Hchk. reflexivity. }
  split.
  { unfold TextGeneration.generate_text_stream. by apply next_created_log. }
  repeat split; try reflexivity.
  cbn [req_url stream_request]. by rewrite append_assoc_string.
Qed.

(** The sample conversation, sent both ways. *)
Lemma stream_posts_same_body_witness :
  exists plain streamed,
    sent (TextGeneration.text_generation text_client sample_messages None None
            None None None None) transport_ok = [plain]
    /\ (TextGeneration.next
          (TextGeneration.generate_text_stream text_client sample_messages
             None None None None None None) transport_ok []).2 = [streamed]
    /\ req_method plain = POST /\ req_method streamed = POST
    /\ req_json streamed = req_json plain
    /\ req_headers streamed = req_headers plain
    /\ req_url streamed = req_url plain +:+ "?stream=true"
    /\ req_stream plain = false /\ req_stream streamed = true.
Proof.
  apply (stream_posts_same_body text_client sample_messages None None None
           None None None transport_ok).
  reflexivity.
Defined.
